(** * n8n-mcp: the tool-response envelope and dispatch contract

    A shallow embedding of [n8n_mcp/models.py], [n8n_mcp/client.py], the
    three tool modules under [n8n_mcp/tools/] and the logging of
    [n8n_mcp/config.py] and [n8n_mcp/server.py] that they run through,
    followed by the properties of the envelope that the tools return.

    Conventions of the embedding.
    - Python values of type [Any] (JSON payloads, the result of
      [model_dump()]) are the inductive [Any]; a [dict[str, Any]] is an
      association list in insertion order.
    - An [async def] of the client or of a tool is a computation in the
      monad [M]: it threads the process state (the client object, the
      remote n8n instance and the record of requests put on the wire) and
      ends in a value or in a raised exception.  State changes made before
      an exception is raised persist, as they do in Python.
    - httpx, pydantic validation of remote payloads and the remote instance
      itself are outside the repository; they are the fields of the class
      [Externals].
    - Every call of a logger is represented.  The logger is the one
      [config.get_logger_instance] returns: the structured logger, whose
      calls take keyword arguments and return, or the fallback logger of
      the standard library, whose calls raise [TypeError] on a keyword
      argument when the severity is enabled.
    - Exceptions are the instances of Python's [Exception], which is what
      [except Exception] catches. *)

From Stdlib Require Import String Ascii List ZArith Bool Lia DecimalString.
From Stdlib Require QArith_base.
Import ListNotations.
Open Scope string_scope.

(** ** Python values *)

(** [datetime] objects and floats are only carried around; an ISO text
    stands for the one, the [repr] text for the other. *)
Definition datetime := string.

#[local] Set Warnings "-register-all".

Inductive Any : Type :=
| PyNone
| PyBool (b : bool)
| PyInt (n : Z)
| PyFloat (repr : string)
| PyStr (s : string)
| PyDatetime (t : datetime)
| PyList (l : list Any)
| PyDict (d : list (string * Any)).

Definition dict := list (string * Any).

(** [d.get(k)] *)
Fixpoint dict_get (k : string) (d : dict) : option Any :=
  match d with
  | [] => None
  | (k', v) :: d' => if String.eqb k k' then Some v else dict_get k d'
  end.

(** [d[k] = v] *)
Fixpoint dict_set (k : string) (v : Any) (d : dict) : dict :=
  match d with
  | [] => [(k, v)]
  | (k', v') :: d' =>
      if String.eqb k k' then (k, v) :: d' else (k', v') :: dict_set k v d'
  end.

(** [list(d)]: the keys, in insertion order *)
Definition dict_keys (d : dict) : list string := map fst d.

(** [type(v).__name__] *)
Definition type_name (v : Any) : string :=
  match v with
  | PyNone => "NoneType"
  | PyBool _ => "bool"
  | PyInt _ => "int"
  | PyFloat _ => "float"
  | PyStr _ => "str"
  | PyDatetime _ => "datetime.datetime"
  | PyList _ => "list"
  | PyDict _ => "dict"
  end.

(** [None] for an absent optional, the wrapped value otherwise *)
Definition py_option {A : Type} (f : A -> Any) (o : option A) : Any :=
  match o with
  | None => PyNone
  | Some a => f a
  end.

(** [str(n)] for a length *)
Definition str_of_nat (n : nat) : string :=
  NilEmpty.string_of_uint (Nat.to_uint n).

(** [x or default] on strings: the empty string is falsy *)
Definition str_or (x : option string) (default : string) : string :=
  match x with
  | Some s => if String.eqb s "" then default else s
  | None => default
  end.

(** [x or []] on optional lists *)
Definition list_or {A : Type} (x : option (list A)) (default : list A) : list A :=
  match x with
  | Some (a :: l) => a :: l
  | _ => default
  end.

(** ** models.py *)

Module ExecutionStatus.
Inductive t := RUNNING | SUCCESS | FAILED | CANCELED | WAITING.

Definition value (s : t) : string :=
  match s with
  | RUNNING => "running"
  | SUCCESS => "success"
  | FAILED => "failed"
  | CANCELED => "canceled"
  | WAITING => "waiting"
  end.
End ExecutionStatus.

Module Workflow.
Record t := mk {
  id : string;
  name : string;
  active : bool;
  nodes : list dict;
  connections : dict;
  settings : dict;
  created_at : option datetime;
  updated_at : option datetime;
  tags : list string
}.

Definition model_dump (w : t) : dict :=
  [ ("id", PyStr (id w));
    ("name", PyStr (name w));
    ("active", PyBool (active w));
    ("nodes", PyList (map PyDict (nodes w)));
    ("connections", PyDict (connections w));
    ("settings", PyDict (settings w));
    ("created_at", py_option PyDatetime (created_at w));
    ("updated_at", py_option PyDatetime (updated_at w));
    ("tags", PyList (map PyStr (tags w))) ].
End Workflow.

Module WorkflowCreate.
Record t := mk {
  name : string;
  nodes : list dict;
  connections : dict;
  settings : dict;
  active : bool;
  tags : list string
}.

(** [model_dump(exclude_none=True)]: no field of this model can be [None] *)
Definition model_dump_exclude_none (w : t) : dict :=
  [ ("name", PyStr (name w));
    ("nodes", PyList (map PyDict (nodes w)));
    ("connections", PyDict (connections w));
    ("settings", PyDict (settings w));
    ("active", PyBool (active w));
    ("tags", PyList (map PyStr (tags w))) ].
End WorkflowCreate.

Module WorkflowUpdate.
Record t := mk {
  name : option string;
  nodes : option (list dict);
  connections : option dict;
  settings : option dict;
  tags : option (list string)
}.

Definition field {A : Type} (k : string) (f : A -> Any) (o : option A) : dict :=
  match o with
  | None => []
  | Some a => [(k, f a)]
  end.

(** [model_dump(exclude_none=True)] *)
Definition model_dump_exclude_none (u : t) : dict :=
  (field "name" PyStr (name u)
   ++ field "nodes" (fun l => PyList (map PyDict l)) (nodes u)
   ++ field "connections" PyDict (connections u)
   ++ field "settings" PyDict (settings u)
   ++ field "tags" (fun l => PyList (map PyStr l)) (tags u))%list.
End WorkflowUpdate.

Module Execution.
Record t := mk {
  id : string;
  workflow_id : string;
  status : ExecutionStatus.t;
  started_at : option datetime;
  stopped_at : option datetime;
  data : option dict;
  error : option string
}.

(** The dumped status is the enum member, a [str] equal to its value. *)
Definition model_dump (e : t) : dict :=
  [ ("id", PyStr (id e));
    ("workflow_id", PyStr (workflow_id e));
    ("status", PyStr (ExecutionStatus.value (status e)));
    ("started_at", py_option PyDatetime (started_at e));
    ("stopped_at", py_option PyDatetime (stopped_at e));
    ("data", py_option PyDict (data e));
    ("error", py_option PyStr (error e)) ].
End Execution.

Module Credential.
(** The model has these five fields and no other: pydantic drops the items
    of a payload that are not fields of the model. *)
Record t := mk {
  id : string;
  name : string;
  type : string;
  created_at : option datetime;
  updated_at : option datetime
}.

Definition model_dump (c : t) : dict :=
  [ ("id", PyStr (id c));
    ("name", PyStr (name c));
    ("type", PyStr (type c));
    ("created_at", py_option PyDatetime (created_at c));
    ("updated_at", py_option PyDatetime (updated_at c)) ].
End Credential.

Module CredentialCreate.
Record t := mk {
  name : string;
  type : string;
  data : dict
}.

Definition model_dump_exclude_none (c : t) : dict :=
  [ ("name", PyStr (name c));
    ("type", PyStr (type c));
    ("data", PyDict (data c)) ].
End CredentialCreate.

Module ToolResponse.
(** [data], [error] and [next_steps] default to [None]. *)
Record t := mk {
  success : bool;
  message : string;
  data : option dict;
  error : option string;
  next_steps : option (list string)
}.
End ToolResponse.

(** ** config.py: the settings the client reads *)

Module N8NSettings.
(** [timeout] is a float between 1 and 300; a rational stands for it. *)
Record t := mk {
  n8n_url : string;
  api_key : string;
  timeout : QArith_base.Q;
  mock_mode : bool
}.
End N8NSettings.

(** ** Exceptions *)

Inductive Exception : Type :=
| RuntimeError (msg : string)
| TransportError (msg : string)
| HTTPStatusError (status_code : Z) (msg : string)
| JSONDecodeError (msg : string)
| AttributeError (msg : string)
| TypeError (msg : string)
| ValidationError (msg : string).

(** [str(e)] *)
Definition str (e : Exception) : string :=
  match e with
  | RuntimeError msg => msg
  | TransportError msg => msg
  | HTTPStatusError _ msg => msg
  | JSONDecodeError msg => msg
  | AttributeError msg => msg
  | TypeError msg => msg
  | ValidationError msg => msg
  end.

Inductive result (A : Type) : Type :=
| Return (a : A)
| Raise (e : Exception).

Arguments Return {A} a.
Arguments Raise {A} e.

(** ** Logging: the standard library and [config.get_logger_instance] *)

Module logging.
Inductive Level := DEBUG | INFO | WARNING | ERROR | CRITICAL.

Definition levelno (l : Level) : Z :=
  match l with
  | DEBUG => 10
  | INFO => 20
  | WARNING => 30
  | ERROR => 40
  | CRITICAL => 50
  end.

(** the keyword arguments [Logger._log] has *)
Definition accepted (k : string) : bool :=
  String.eqb k "exc_info" || String.eqb k "extra"
  || String.eqb k "stack_info" || String.eqb k "stacklevel".

(** [Logger.info(msg, **kwargs)], [Logger.error(msg, **kwargs)] and the like
    on a logger of effective level [level]: nothing happens when the
    severity is not enabled; otherwise the keyword arguments go to
    [Logger._log], which refuses the first one it does not have *)
Definition log (level severity : Level) (kwargs : list (string * Any))
    : result unit :=
  if (levelno level <=? levelno severity)%Z then
    match find (fun item => negb (accepted (fst item))) kwargs with
    | Some (k, _) =>
        Raise (TypeError
                 ("Logger._log() got an unexpected keyword argument '"
                  ++ k ++ "'"))
    | None => Return tt
    end
  else Return tt.
End logging.

(** What [get_logger_instance] returns: the structured logger when it can be
    imported, else [logging.getLogger(name)], here with the effective level
    it has. *)
Inductive Logger : Type :=
| Structured
| Fallback (level : logging.Level).

(** a call of the logger at a severity, with an event and keyword arguments *)
Definition Logger_log (l : Logger) (severity : logging.Level) (event : string)
    (kwargs : list (string * Any)) : result unit :=
  match l with
  | Structured => Return tt
  | Fallback level => logging.log level severity kwargs
  end.

(** an INFO call with keyword arguments returns: the logger is structured,
    or INFO is not enabled *)
Definition quiet_info (l : Logger) : bool :=
  match l with
  | Structured => true
  | Fallback level =>
      negb (logging.levelno level <=? logging.levelno logging.INFO)%Z
  end.

(** an ERROR call with keyword arguments returns: the logger is structured,
    or ERROR is not enabled *)
Definition quiet_error (l : Logger) : bool :=
  match l with
  | Structured => true
  | Fallback level =>
      negb (logging.levelno level <=? logging.levelno logging.ERROR)%Z
  end.

(** what the fallback logger raises on the keyword [error] *)
Definition unexpected_error_keyword : Exception :=
  TypeError "Logger._log() got an unexpected keyword argument 'error'".

(** ** httpx: the transport handle, requests and responses *)

Inductive Method := GET | POST | PATCH | DELETE.

Module Request.
Record t := mk {
  method : Method;
  url : string;
  params : option dict;
  json : option dict
}.
End Request.

Module Response.
(** [error_text] is the message httpx gives the [HTTPStatusError] of this
    response; [body] is the decoded JSON, or the text of the decoding
    error when the body is not JSON. *)
Record t := mk {
  status_code : Z;
  error_text : string;
  body : string + Any
}.

Definition is_success (r : t) : bool :=
  (200 <=? status_code r)%Z && (status_code r <=? 299)%Z.

Definition raise_for_status (r : t) : result unit :=
  if is_success r then Return tt
  else Raise (HTTPStatusError (status_code r) (error_text r)).

Definition json (r : t) : result Any :=
  match body r with
  | inr v => Return v
  | inl msg => Raise (JSONDecodeError msg)
  end.
End Response.

Module AsyncClient.
Record t := mk {
  base_url : string;
  headers : list (string * string);
  timeout : QArith_base.Q;
  is_closed : bool
}.

(** [await c.aclose()]: the handle is closed in place *)
Definition aclose (c : t) : t :=
  mk (base_url c) (headers c) (timeout c) true.

(** What httpx raises when a request is sent through a closed handle. *)
Definition closed_error : Exception :=
  RuntimeError "Cannot send a request, as the client has been closed.".
End AsyncClient.

(** ** What the repository does not contain

    The remote n8n instance with the network in front of it ([transport]:
    one exchange ends in a transport fault, given by its text, or in a
    response, and may change the remote state) and pydantic's validation of
    a remote payload against a model (a model class called on the keyword
    arguments of a payload: the text of the validation error, or the model
    instance).

    The environment also fixes the logger of the process.  The tools are
    those of an application that [create_app] has returned, and [create_app]
    opens with an INFO call that has keyword arguments: with a logger on
    which that call raises no tool is ever registered ([served], and
    [create_app_serves] below). *)

Class Externals : Type := {
  Remote : Type;
  transport : Remote -> AsyncClient.t -> Request.t -> (string + Response.t) * Remote;
  Workflow_validate : dict -> string + Workflow.t;
  Execution_validate : dict -> string + Execution.t;
  Credential_validate : dict -> string + Credential.t;
  logger : Logger;
  served : quiet_info logger = true
}.

(** ** The process state and the monad of [async def] bodies *)

Record N8NClient := mkN8NClient {
  settings : N8NSettings.t;
  _client : option AsyncClient.t
}.

(** [N8NClient(settings)] *)
Definition N8NClient_init (s : N8NSettings.t) : N8NClient :=
  mkN8NClient s None.

Section Runtime.
Context {E : Externals}.

Record Process := mkProcess {
  self : N8NClient;
  n8n : Remote;
  wire : list Request.t
}.

Definition M (A : Type) : Type := Process -> result A * Process.

Definition ret {A : Type} (a : A) : M A := fun p => (Return a, p).

Definition raise {A : Type} (e : Exception) : M A := fun p => (Raise e, p).

Definition bind {A B : Type} (m : M A) (k : A -> M B) : M B :=
  fun p =>
    match m p with
    | (Return a, p') => k a p'
    | (Raise e, p') => (Raise e, p')
    end.

(** [try: body / except Exception as e: handler] *)
Definition try_except {A : Type} (body : M A) (handler : Exception -> M A) : M A :=
  fun p =>
    match body p with
    | (Return a, p') => (Return a, p')
    | (Raise e, p') => handler e p'
    end.

(** a computation that touches no state *)
Definition lift {A : Type} (r : result A) : M A := fun p => (r, p).

(** [logger.info(event, **kwargs)] and [logger.error(event, **kwargs)] *)
Definition logger_info (event : string) (kwargs : list (string * Any))
    : M unit :=
  lift (Logger_log logger logging.INFO event kwargs).

Definition logger_error (event : string) (kwargs : list (string * Any))
    : M unit :=
  lift (Logger_log logger logging.ERROR event kwargs).

Definition get_self : M N8NClient := fun p => (Return (self p), p).

(** [self._client = c] *)
Definition set__client (c : option AsyncClient.t) : M unit :=
  fun p =>
    (Return tt,
     mkProcess (mkN8NClient (settings (self p)) c) (n8n p) (wire p)).

(** One request through a handle: refused when the handle is closed,
    otherwise put on the wire and answered by the remote side. *)
Definition send (c : AsyncClient.t) (r : Request.t) : M Response.t :=
  fun p =>
    if AsyncClient.is_closed c then (Raise AsyncClient.closed_error, p)
    else
      let (answer, remote') := transport (n8n p) c r in
      let p' := mkProcess (self p) remote' (wire p ++ [r]) in
      match answer with
      | inl msg => (Raise (TransportError msg), p')
      | inr response => (Return response, p')
      end.
End Runtime.

Declare Scope py_scope.
Delimit Scope py_scope with py.
Notation "x <- m ;; k" := (bind m (fun x => k))
  (at level 61, m at next level, right associativity) : py_scope.
Notation "m ;; k" := (bind m (fun _ => k))
  (at level 61, right associativity) : py_scope.
Open Scope py_scope.

(** ** Reading a decoded JSON body *)

(** [data.get("data", default)]: only a mapping has [get] *)
Definition get_data (data : Any) (default : Any) : result Any :=
  match data with
  | PyDict d =>
      Return (match dict_get "data" d with Some v => v | None => default end)
  | _ =>
      Raise (AttributeError
               ("'" ++ type_name data ++ "' object has no attribute 'get'"))
  end.

(** the one-character strings a [str] yields when iterated *)
Fixpoint chars (s : string) : list string :=
  match s with
  | EmptyString => []
  | String c s' => String c EmptyString :: chars s'
  end.

(** [for x in v]: a list yields its items, a mapping its keys, a string its
    characters; nothing else a JSON body holds is iterable *)
Definition iterate (v : Any) : result (list Any) :=
  match v with
  | PyList l => Return l
  | PyDict d => Return (map PyStr (dict_keys d))
  | PyStr s => Return (map PyStr (chars s))
  | _ => Raise (TypeError ("'" ++ type_name v ++ "' object is not iterable"))
  end.

(** A model class called on the keyword arguments [v] (a double-star
    call): [v] must be a mapping, and its items must validate *)
Definition construct {A : Type} (model : string)
    (validate : dict -> string + A) (v : Any) : result A :=
  match v with
  | PyDict d =>
      match validate d with
      | inr a => Return a
      | inl msg => Raise (ValidationError msg)
      end
  | _ =>
      Raise (TypeError
               ("n8n_mcp.models." ++ model
                ++ "() argument after ** must be a mapping, not "
                ++ type_name v))
  end.

(** [[f(x) for x in l]]: the first exception ends the comprehension *)
Fixpoint comprehension {A B : Type} (f : A -> result B) (l : list A)
    : result (list B) :=
  match l with
  | [] => Return []
  | x :: l' =>
      match f x with
      | Raise e => Raise e
      | Return y =>
          match comprehension f l' with
          | Raise e => Raise e
          | Return ys => Return (y :: ys)
          end
      end
  end.

(** the list comprehension that calls the model on every item of
    [data.get("data", [])] *)
Definition construct_all {A : Type} (model : string)
    (validate : dict -> string + A) (data : Any) : result (list A) :=
  match get_data data (PyList []) with
  | Raise e => Raise e
  | Return v =>
      match iterate v with
      | Raise e => Raise e
      | Return items => comprehension (construct model validate) items
      end
  end.

(** the model called on the keyword arguments [data.get("data", {})] *)
Definition construct_one {A : Type} (model : string)
    (validate : dict -> string + A) (data : Any) : result A :=
  match get_data data (PyDict []) with
  | Raise e => Raise e
  | Return v => construct model validate v
  end.

(** ** client.py *)

Module client.
Section N8NClient.
Context {E : Externals}.

(** *** Mock implementations *)

Definition start_node : dict :=
  [("name", PyStr "Start"); ("type", PyStr "n8n-nodes-base.start")].

Definition _mock_list_workflows : list Workflow.t :=
  [ {| Workflow.id := "1";
       Workflow.name := "Example Workflow";
       Workflow.active := true;
       Workflow.nodes := [start_node];
       Workflow.connections := [];
       Workflow.settings := [];
       Workflow.created_at := None;
       Workflow.updated_at := None;
       Workflow.tags := [] |};
    {| Workflow.id := "2";
       Workflow.name := "Test Workflow";
       Workflow.active := false;
       Workflow.nodes := [];
       Workflow.connections := [];
       Workflow.settings := [];
       Workflow.created_at := None;
       Workflow.updated_at := None;
       Workflow.tags := [] |} ].

Definition _mock_get_workflow (workflow_id : string) : Workflow.t :=
  {| Workflow.id := workflow_id;
     Workflow.name := "Workflow " ++ workflow_id;
     Workflow.active := true;
     Workflow.nodes := [start_node];
     Workflow.connections := [];
     Workflow.settings := [];
     Workflow.created_at := None;
     Workflow.updated_at := None;
     Workflow.tags := [] |}.

Definition _mock_create_workflow (workflow : WorkflowCreate.t) : Workflow.t :=
  {| Workflow.id := "new-workflow-id";
     Workflow.name := WorkflowCreate.name workflow;
     Workflow.active := WorkflowCreate.active workflow;
     Workflow.nodes := WorkflowCreate.nodes workflow;
     Workflow.connections := WorkflowCreate.connections workflow;
     Workflow.settings := WorkflowCreate.settings workflow;
     Workflow.created_at := None;
     Workflow.updated_at := None;
     Workflow.tags := [] |}.

Definition _mock_update_workflow (workflow_id : string)
    (updates : WorkflowUpdate.t) : Workflow.t :=
  {| Workflow.id := workflow_id;
     Workflow.name :=
       str_or (WorkflowUpdate.name updates) ("Workflow " ++ workflow_id);
     Workflow.active := true;
     Workflow.nodes := list_or (WorkflowUpdate.nodes updates) [];
     Workflow.connections := list_or (WorkflowUpdate.connections updates) [];
     Workflow.settings := [];
     Workflow.created_at := None;
     Workflow.updated_at := None;
     Workflow.tags := [] |}.

Definition _mock_delete_workflow (workflow_id : string) : bool := true.

Definition _mock_activate_workflow (workflow_id : string) (active : bool)
    : Workflow.t :=
  {| Workflow.id := workflow_id;
     Workflow.name := "Workflow " ++ workflow_id;
     Workflow.active := active;
     Workflow.nodes := [];
     Workflow.connections := [];
     Workflow.settings := [];
     Workflow.created_at := None;
     Workflow.updated_at := None;
     Workflow.tags := [] |}.

Definition _mock_execute_workflow (workflow_id : string)
    (data : option dict) : Execution.t :=
  {| Execution.id := "exec-1";
     Execution.workflow_id := workflow_id;
     Execution.status := ExecutionStatus.SUCCESS;
     Execution.started_at := None;
     Execution.stopped_at := None;
     Execution.data := data;
     Execution.error := None |}.

Definition _mock_list_executions (workflow_id : option string) (limit : Z)
    : list Execution.t :=
  [ {| Execution.id := "exec-1";
       Execution.workflow_id := str_or workflow_id "1";
       Execution.status := ExecutionStatus.SUCCESS;
       Execution.started_at := None;
       Execution.stopped_at := None;
       Execution.data := None;
       Execution.error := None |} ].

Definition _mock_get_execution (execution_id : string) : Execution.t :=
  {| Execution.id := execution_id;
     Execution.workflow_id := "1";
     Execution.status := ExecutionStatus.SUCCESS;
     Execution.started_at := None;
     Execution.stopped_at := None;
     Execution.data := None;
     Execution.error := None |}.

Definition _mock_list_credentials : list Credential.t :=
  [ {| Credential.id := "1";
       Credential.name := "HTTP Basic";
       Credential.type := "httpBasicAuth";
       Credential.created_at := None;
       Credential.updated_at := None |};
    {| Credential.id := "2";
       Credential.name := "API Key";
       Credential.type := "httpQueryAuth";
       Credential.created_at := None;
       Credential.updated_at := None |} ].

Definition _mock_get_credential (credential_id : string) : Credential.t :=
  {| Credential.id := credential_id;
     Credential.name := "Credential " ++ credential_id;
     Credential.type := "httpBasicAuth";
     Credential.created_at := None;
     Credential.updated_at := None |}.

Definition _mock_create_credential (credential : CredentialCreate.t)
    : Credential.t :=
  {| Credential.id := "new-cred-id";
     Credential.name := CredentialCreate.name credential;
     Credential.type := CredentialCreate.type credential;
     Credential.created_at := None;
     Credential.updated_at := None |}.

(** *** The transport handle *)

Definition _ensure_client : M AsyncClient.t :=
  this <- get_self ;;
  match _client this with
  | None =>
      let key := N8NSettings.api_key (settings this) in
      let headers :=
        if String.eqb key "" then [] else [("X-N8N-API-KEY", key)] in
      let c :=
        AsyncClient.mk (N8NSettings.n8n_url (settings this) ++ "/api/v1")
          headers (N8NSettings.timeout (settings this)) false in
      set__client (Some c) ;;
      ret c
  | Some c => ret c
  end.

Definition close : M unit :=
  this <- get_self ;;
  match _client this with
  | Some c =>
      set__client (Some (AsyncClient.aclose c)) ;;
      set__client None
  | None => ret tt
  end.

(** [__aenter__] and [__aexit__] *)
Definition __aenter__ : M unit := _ensure_client ;; ret tt.
Definition __aexit__ : M unit := close.

(** the part of every live operation after the request: check the status,
    decode the body, hand it to [read] *)
Definition checked {A : Type} (response : Response.t)
    (read : Any -> result A) : M A :=
  lift (Response.raise_for_status response) ;;
  data <- lift (Response.json response) ;;
  lift (read data).

Definition mock_mode : M bool :=
  this <- get_self ;;
  ret (N8NSettings.mock_mode (settings this)).

(** *** Workflow operations *)

Definition list_workflows : M (list Workflow.t) :=
  mock <- mock_mode ;;
  if mock then ret _mock_list_workflows
  else
    client <- _ensure_client ;;
    response <- send client (Request.mk GET "/workflows" None None) ;;
    checked response (construct_all "Workflow" Workflow_validate).

Definition get_workflow (workflow_id : string) : M Workflow.t :=
  mock <- mock_mode ;;
  if mock then ret (_mock_get_workflow workflow_id)
  else
    client <- _ensure_client ;;
    response <-
      send client (Request.mk GET ("/workflows/" ++ workflow_id) None None) ;;
    checked response (construct_one "Workflow" Workflow_validate).

Definition create_workflow (workflow : WorkflowCreate.t) : M Workflow.t :=
  mock <- mock_mode ;;
  if mock then ret (_mock_create_workflow workflow)
  else
    client <- _ensure_client ;;
    response <-
      send client
        (Request.mk POST "/workflows" None
           (Some (WorkflowCreate.model_dump_exclude_none workflow))) ;;
    checked response (construct_one "Workflow" Workflow_validate).

Definition update_workflow (workflow_id : string)
    (updates : WorkflowUpdate.t) : M Workflow.t :=
  mock <- mock_mode ;;
  if mock then ret (_mock_update_workflow workflow_id updates)
  else
    client <- _ensure_client ;;
    response <-
      send client
        (Request.mk PATCH ("/workflows/" ++ workflow_id) None
           (Some (WorkflowUpdate.model_dump_exclude_none updates))) ;;
    checked response (construct_one "Workflow" Workflow_validate).

Definition delete_workflow (workflow_id : string) : M bool :=
  mock <- mock_mode ;;
  if mock then ret (_mock_delete_workflow workflow_id)
  else
    client <- _ensure_client ;;
    response <-
      send client
        (Request.mk DELETE ("/workflows/" ++ workflow_id) None None) ;;
    lift (Response.raise_for_status response) ;;
    ret true.

Definition activate_workflow (workflow_id : string) : M Workflow.t :=
  mock <- mock_mode ;;
  if mock then ret (_mock_activate_workflow workflow_id true)
  else
    client <- _ensure_client ;;
    response <-
      send client
        (Request.mk PATCH ("/workflows/" ++ workflow_id) None
           (Some [("active", PyBool true)])) ;;
    checked response (construct_one "Workflow" Workflow_validate).

Definition deactivate_workflow (workflow_id : string) : M Workflow.t :=
  mock <- mock_mode ;;
  if mock then ret (_mock_activate_workflow workflow_id false)
  else
    client <- _ensure_client ;;
    response <-
      send client
        (Request.mk PATCH ("/workflows/" ++ workflow_id) None
           (Some [("active", PyBool false)])) ;;
    checked response (construct_one "Workflow" Workflow_validate).

(** *** Execution operations *)

(** [{"data": data} if data else {}]: [None] and the empty mapping are
    falsy *)
Definition execute_body (data : option dict) : dict :=
  match data with
  | Some (item :: d) => [("data", PyDict (item :: d))]
  | _ => []
  end.

Definition execute_workflow (workflow_id : string) (data : option dict)
    : M Execution.t :=
  mock <- mock_mode ;;
  if mock then ret (_mock_execute_workflow workflow_id data)
  else
    client <- _ensure_client ;;
    response <-
      send client
        (Request.mk POST ("/workflows/" ++ workflow_id ++ "/execute") None
           (Some (execute_body data))) ;;
    checked response (construct_one "Execution" Execution_validate).

(** [params = {"limit": limit}], then [params["workflowId"] = workflow_id]
    under [if workflow_id:] *)
Definition list_executions_params (workflow_id : option string) (limit : Z)
    : dict :=
  let params := [("limit", PyInt limit)] in
  match workflow_id with
  | Some f =>
      if String.eqb f "" then params
      else dict_set "workflowId" (PyStr f) params
  | None => params
  end.

Definition list_executions (workflow_id : option string) (limit : Z)
    : M (list Execution.t) :=
  mock <- mock_mode ;;
  if mock then ret (_mock_list_executions workflow_id limit)
  else
    client <- _ensure_client ;;
    response <-
      send client
        (Request.mk GET "/executions"
           (Some (list_executions_params workflow_id limit)) None) ;;
    checked response (construct_all "Execution" Execution_validate).

Definition get_execution (execution_id : string) : M Execution.t :=
  mock <- mock_mode ;;
  if mock then ret (_mock_get_execution execution_id)
  else
    client <- _ensure_client ;;
    response <-
      send client
        (Request.mk GET ("/executions/" ++ execution_id) None None) ;;
    checked response (construct_one "Execution" Execution_validate).

Definition delete_execution (execution_id : string) : M bool :=
  mock <- mock_mode ;;
  if mock then ret true
  else
    client <- _ensure_client ;;
    response <-
      send client
        (Request.mk DELETE ("/executions/" ++ execution_id) None None) ;;
    lift (Response.raise_for_status response) ;;
    ret true.

(** *** Credential operations *)

Definition list_credentials : M (list Credential.t) :=
  mock <- mock_mode ;;
  if mock then ret _mock_list_credentials
  else
    client <- _ensure_client ;;
    response <- send client (Request.mk GET "/credentials" None None) ;;
    checked response (construct_all "Credential" Credential_validate).

Definition get_credential (credential_id : string) : M Credential.t :=
  mock <- mock_mode ;;
  if mock then ret (_mock_get_credential credential_id)
  else
    client <- _ensure_client ;;
    response <-
      send client
        (Request.mk GET ("/credentials/" ++ credential_id) None None) ;;
    checked response (construct_one "Credential" Credential_validate).

Definition create_credential (credential : CredentialCreate.t)
    : M Credential.t :=
  mock <- mock_mode ;;
  if mock then ret (_mock_create_credential credential)
  else
    client <- _ensure_client ;;
    response <-
      send client
        (Request.mk POST "/credentials" None
           (Some (CredentialCreate.model_dump_exclude_none credential))) ;;
    checked response (construct_one "Credential" Credential_validate).

Definition delete_credential (credential_id : string) : M bool :=
  mock <- mock_mode ;;
  if mock then ret true
  else
    client <- _ensure_client ;;
    response <-
      send client
        (Request.mk DELETE ("/credentials/" ++ credential_id) None None) ;;
    lift (Response.raise_for_status response) ;;
    ret true.
End N8NClient.
End client.

(** ** tools/workflow_tools.py *)

Module workflow_tools.
Section register_workflow_tools.
Context {E : Externals}.

Definition list_workflows : M ToolResponse.t :=
  logger_info "Listing workflows" [] ;;
  try_except
    (workflows <- client.list_workflows ;;
     ret (ToolResponse.mk true
            ("Found " ++ str_of_nat (length workflows) ++ " workflows")
            (Some
               [ ("workflows",
                  PyList
                    (map (fun wf => PyDict (Workflow.model_dump wf))
                       workflows));
                 ("count", PyInt (Z.of_nat (length workflows))) ])
            None None))
    (fun e =>
       logger_error "Failed to list workflows" [("error", PyStr (str e))] ;;
       ret (ToolResponse.mk false "Failed to list workflows" None
              (Some (str e)) None)).

Definition get_workflow (workflow_id : string) : M ToolResponse.t :=
  logger_info "Getting workflow" [("workflow_id", PyStr workflow_id)] ;;
  try_except
    (workflow <- client.get_workflow workflow_id ;;
     ret (ToolResponse.mk true
            ("Retrieved workflow: " ++ Workflow.name workflow)
            (Some [("workflow", PyDict (Workflow.model_dump workflow))])
            None None))
    (fun e =>
       logger_error "Failed to get workflow" [("error", PyStr (str e))] ;;
       ret (ToolResponse.mk false ("Failed to get workflow " ++ workflow_id) None
              (Some (str e)) None)).

Definition create_workflow (name : string) (nodes : option (list dict))
    (connections : option dict) (active : bool)
    (tags : option (list string)) : M ToolResponse.t :=
  logger_info "Creating workflow" [("name", PyStr name)] ;;
  try_except
    (let workflow :=
       {| WorkflowCreate.name := name;
          WorkflowCreate.nodes := list_or nodes [];
          WorkflowCreate.connections := list_or connections [];
          WorkflowCreate.settings := [];
          WorkflowCreate.active := active;
          WorkflowCreate.tags := list_or tags [] |} in
     created <- client.create_workflow workflow ;;
     ret (ToolResponse.mk true
            ("Created workflow: " ++ Workflow.name created)
            (Some [("workflow", PyDict (Workflow.model_dump created))])
            None
            (Some
               [ "Add nodes with update_workflow";
                 "Activate with activate_workflow";
                 "Execute with execute_workflow" ])))
    (fun e =>
       logger_error "Failed to create workflow" [("error", PyStr (str e))] ;;
       ret (ToolResponse.mk false "Failed to create workflow" None
              (Some (str e)) None)).

Definition update_workflow (workflow_id : string) (name : option string)
    (nodes : option (list dict)) (connections : option dict)
    : M ToolResponse.t :=
  logger_info "Updating workflow" [("workflow_id", PyStr workflow_id)] ;;
  try_except
    (let updates :=
       {| WorkflowUpdate.name := name;
          WorkflowUpdate.nodes := nodes;
          WorkflowUpdate.connections := connections;
          WorkflowUpdate.settings := None;
          WorkflowUpdate.tags := None |} in
     updated <- client.update_workflow workflow_id updates ;;
     ret (ToolResponse.mk true
            ("Updated workflow: " ++ Workflow.name updated)
            (Some [("workflow", PyDict (Workflow.model_dump updated))])
            None None))
    (fun e =>
       logger_error "Failed to update workflow" [("error", PyStr (str e))] ;;
       ret (ToolResponse.mk false ("Failed to update workflow " ++ workflow_id) None
              (Some (str e)) None)).

Definition delete_workflow (workflow_id : string) : M ToolResponse.t :=
  logger_info "Deleting workflow" [("workflow_id", PyStr workflow_id)] ;;
  try_except
    (client.delete_workflow workflow_id ;;
     ret (ToolResponse.mk true ("Deleted workflow " ++ workflow_id)
            (Some [("workflow_id", PyStr workflow_id)])
            None None))
    (fun e =>
       logger_error "Failed to delete workflow" [("error", PyStr (str e))] ;;
       ret (ToolResponse.mk false ("Failed to delete workflow " ++ workflow_id) None
              (Some (str e)) None)).

Definition activate_workflow (workflow_id : string) : M ToolResponse.t :=
  logger_info "Activating workflow" [("workflow_id", PyStr workflow_id)] ;;
  try_except
    (workflow <- client.activate_workflow workflow_id ;;
     ret (ToolResponse.mk true
            ("Activated workflow: " ++ Workflow.name workflow)
            (Some
               [ ("workflow_id", PyStr workflow_id);
                 ("active", PyBool true) ])
            None None))
    (fun e =>
       logger_error "Failed to activate workflow" [("error", PyStr (str e))] ;;
       ret (ToolResponse.mk false ("Failed to activate workflow " ++ workflow_id) None
              (Some (str e)) None)).

Definition deactivate_workflow (workflow_id : string) : M ToolResponse.t :=
  logger_info "Deactivating workflow" [("workflow_id", PyStr workflow_id)] ;;
  try_except
    (workflow <- client.deactivate_workflow workflow_id ;;
     ret (ToolResponse.mk true
            ("Deactivated workflow: " ++ Workflow.name workflow)
            (Some
               [ ("workflow_id", PyStr workflow_id);
                 ("active", PyBool false) ])
            None None))
    (fun e =>
       logger_error "Failed to deactivate workflow" [("error", PyStr (str e))] ;;
       ret (ToolResponse.mk false ("Failed to deactivate workflow " ++ workflow_id) None
              (Some (str e)) None)).
End register_workflow_tools.
End workflow_tools.

(** ** tools/execution_tools.py *)

Module execution_tools.
Section register_execution_tools.
Context {E : Externals}.

Definition execute_workflow (workflow_id : string) (data : option dict)
    : M ToolResponse.t :=
  logger_info "Executing workflow" [("workflow_id", PyStr workflow_id)] ;;
  try_except
    (execution <- client.execute_workflow workflow_id data ;;
     ret (ToolResponse.mk true
            ("Executed workflow, status: "
             ++ ExecutionStatus.value (Execution.status execution))
            (Some
               [ ("execution_id", PyStr (Execution.id execution));
                 ("workflow_id", PyStr (Execution.workflow_id execution));
                 ("status",
                  PyStr (ExecutionStatus.value (Execution.status execution)));
                 ("data", py_option PyDict (Execution.data execution));
                 ("error", py_option PyStr (Execution.error execution)) ])
            None
            (Some
               [ "Check status with get_execution";
                 "View results in n8n UI" ])))
    (fun e =>
       logger_error "Failed to execute workflow" [("error", PyStr (str e))] ;;
       ret (ToolResponse.mk false ("Failed to execute workflow " ++ workflow_id) None
              (Some (str e)) None)).

Definition list_executions (workflow_id : option string) (limit : Z)
    : M ToolResponse.t :=
  logger_info "Listing executions"
    [("workflow_id", py_option PyStr workflow_id); ("limit", PyInt limit)] ;;
  try_except
    (executions <- client.list_executions workflow_id limit ;;
     ret (ToolResponse.mk true
            ("Found " ++ str_of_nat (length executions) ++ " executions")
            (Some
               [ ("executions",
                  PyList
                    (map (fun ex => PyDict (Execution.model_dump ex))
                       executions));
                 ("count", PyInt (Z.of_nat (length executions))) ])
            None None))
    (fun e =>
       logger_error "Failed to list executions" [("error", PyStr (str e))] ;;
       ret (ToolResponse.mk false "Failed to list executions" None
              (Some (str e)) None)).

Definition get_execution (execution_id : string) : M ToolResponse.t :=
  logger_info "Getting execution" [("execution_id", PyStr execution_id)] ;;
  try_except
    (execution <- client.get_execution execution_id ;;
     ret (ToolResponse.mk true
            ("Execution status: "
             ++ ExecutionStatus.value (Execution.status execution))
            (Some [("execution", PyDict (Execution.model_dump execution))])
            None None))
    (fun e =>
       logger_error "Failed to get execution" [("error", PyStr (str e))] ;;
       ret (ToolResponse.mk false ("Failed to get execution " ++ execution_id) None
              (Some (str e)) None)).

Definition delete_execution (execution_id : string) : M ToolResponse.t :=
  logger_info "Deleting execution" [("execution_id", PyStr execution_id)] ;;
  try_except
    (client.delete_execution execution_id ;;
     ret (ToolResponse.mk true ("Deleted execution " ++ execution_id)
            (Some [("execution_id", PyStr execution_id)])
            None None))
    (fun e =>
       logger_error "Failed to delete execution" [("error", PyStr (str e))] ;;
       ret (ToolResponse.mk false ("Failed to delete execution " ++ execution_id) None
              (Some (str e)) None)).
End register_execution_tools.
End execution_tools.

(** ** tools/credential_tools.py *)

Module credential_tools.
Section register_credential_tools.
Context {E : Externals}.

Definition list_credentials : M ToolResponse.t :=
  logger_info "Listing credentials" [] ;;
  try_except
    (credentials <- client.list_credentials ;;
     ret (ToolResponse.mk true
            ("Found " ++ str_of_nat (length credentials) ++ " credentials")
            (Some
               [ ("credentials",
                  PyList
                    (map (fun cred => PyDict (Credential.model_dump cred))
                       credentials));
                 ("count", PyInt (Z.of_nat (length credentials))) ])
            None None))
    (fun e =>
       logger_error "Failed to list credentials" [("error", PyStr (str e))] ;;
       ret (ToolResponse.mk false "Failed to list credentials" None
              (Some (str e)) None)).

Definition get_credential (credential_id : string) : M ToolResponse.t :=
  logger_info "Getting credential" [("credential_id", PyStr credential_id)] ;;
  try_except
    (credential <- client.get_credential credential_id ;;
     ret (ToolResponse.mk true
            ("Retrieved credential: " ++ Credential.name credential)
            (Some [("credential", PyDict (Credential.model_dump credential))])
            None None))
    (fun e =>
       logger_error "Failed to get credential" [("error", PyStr (str e))] ;;
       ret (ToolResponse.mk false
              ("Failed to get credential " ++ credential_id) None
              (Some (str e)) None)).

Definition create_credential (name : string) (credential_type : string)
    (data : dict) : M ToolResponse.t :=
  logger_info "Creating credential"
    [("name", PyStr name); ("type", PyStr credential_type)] ;;
  try_except
    (let credential :=
       {| CredentialCreate.name := name;
          CredentialCreate.type := credential_type;
          CredentialCreate.data := data |} in
     created <- client.create_credential credential ;;
     ret (ToolResponse.mk true
            ("Created credential: " ++ Credential.name created)
            (Some [("credential", PyDict (Credential.model_dump created))])
            None None))
    (fun e =>
       logger_error "Failed to create credential" [("error", PyStr (str e))] ;;
       ret (ToolResponse.mk false "Failed to create credential" None
              (Some (str e)) None)).

Definition delete_credential (credential_id : string) : M ToolResponse.t :=
  logger_info "Deleting credential" [("credential_id", PyStr credential_id)] ;;
  try_except
    (client.delete_credential credential_id ;;
     ret (ToolResponse.mk true ("Deleted credential " ++ credential_id)
            (Some [("credential_id", PyStr credential_id)])
            None None))
    (fun e =>
       logger_error "Failed to delete credential" [("error", PyStr (str e))] ;;
       ret (ToolResponse.mk false
              ("Failed to delete credential " ++ credential_id) None
              (Some (str e)) None)).

Definition credential_types : dict :=
  [ ("httpBasicAuth", PyStr "HTTP Basic Authentication");
    ("httpQueryAuth", PyStr "HTTP Query Authentication (API key in URL)");
    ("httpHeaderAuth", PyStr "HTTP Header Authentication");
    ("oAuth2Api", PyStr "OAuth2 Authentication");
    ("jwtAuth", PyStr "JWT Authentication");
    ("slackApi", PyStr "Slack API");
    ("googleApi", PyStr "Google API OAuth2");
    ("githubApi", PyStr "GitHub API");
    ("aws", PyStr "AWS Credentials");
    ("smtp", PyStr "SMTP Email Credentials");
    ("mysql", PyStr "MySQL Database");
    ("postgres", PyStr "PostgreSQL Database");
    ("redis", PyStr "Redis Database");
    ("ssh", PyStr "SSH Credentials") ].

(** no [try], no use of the client *)
Definition list_credential_types : M ToolResponse.t :=
  ret (ToolResponse.mk true "Common credential types"
         (Some [("credential_types", PyDict credential_types)])
         None None).
End register_credential_tools.
End credential_tools.

(** ** The tool surface

    The sixteen registered tools with their parameters; [invoke] is the
    hosting application calling one of them. *)

Inductive ToolCall : Type :=
| call_list_workflows
| call_get_workflow (workflow_id : string)
| call_create_workflow (name : string) (nodes : option (list dict))
    (connections : option dict) (active : bool) (tags : option (list string))
| call_update_workflow (workflow_id : string) (name : option string)
    (nodes : option (list dict)) (connections : option dict)
| call_delete_workflow (workflow_id : string)
| call_activate_workflow (workflow_id : string)
| call_deactivate_workflow (workflow_id : string)
| call_execute_workflow (workflow_id : string) (data : option dict)
| call_list_executions (workflow_id : option string) (limit : Z)
| call_get_execution (execution_id : string)
| call_delete_execution (execution_id : string)
| call_list_credentials
| call_get_credential (credential_id : string)
| call_create_credential (name : string) (credential_type : string)
    (data : dict)
| call_delete_credential (credential_id : string)
| call_list_credential_types.

Section Server.
Context {E : Externals}.

Definition invoke (call : ToolCall) : M ToolResponse.t :=
  match call with
  | call_list_workflows => workflow_tools.list_workflows
  | call_get_workflow workflow_id => workflow_tools.get_workflow workflow_id
  | call_create_workflow name nodes connections active tags =>
      workflow_tools.create_workflow name nodes connections active tags
  | call_update_workflow workflow_id name nodes connections =>
      workflow_tools.update_workflow workflow_id name nodes connections
  | call_delete_workflow workflow_id =>
      workflow_tools.delete_workflow workflow_id
  | call_activate_workflow workflow_id =>
      workflow_tools.activate_workflow workflow_id
  | call_deactivate_workflow workflow_id =>
      workflow_tools.deactivate_workflow workflow_id
  | call_execute_workflow workflow_id data =>
      execution_tools.execute_workflow workflow_id data
  | call_list_executions workflow_id limit =>
      execution_tools.list_executions workflow_id limit
  | call_get_execution execution_id =>
      execution_tools.get_execution execution_id
  | call_delete_execution execution_id =>
      execution_tools.delete_execution execution_id
  | call_list_credentials => credential_tools.list_credentials
  | call_get_credential credential_id =>
      credential_tools.get_credential credential_id
  | call_create_credential name credential_type data =>
      credential_tools.create_credential name credential_type data
  | call_delete_credential credential_id =>
      credential_tools.delete_credential credential_id
  | call_list_credential_types => credential_tools.list_credential_types
  end.
End Server.

(** ** Vocabulary of the properties *)

(** the two shapes an envelope may have *)
Definition success_envelope (r : ToolResponse.t) : bool :=
  ToolResponse.success r
  && match ToolResponse.data r with Some _ => true | None => false end
  && match ToolResponse.error r with Some _ => false | None => true end.

Definition failure_envelope (r : ToolResponse.t) : bool :=
  negb (ToolResponse.success r)
  && match ToolResponse.error r with Some _ => true | None => false end
  && match ToolResponse.data r with Some _ => false | None => true end.

(** [k] is a key of [v] or of a mapping nested anywhere inside [v] *)
Fixpoint has_key (k : string) (v : Any) {struct v} : bool :=
  match v with
  | PyList l => existsb (has_key k) l
  | PyDict d =>
      existsb
        (fun item : string * Any =>
           let (k', v') := item in String.eqb k k' || has_key k v')
        d
  | _ => false
  end.

(** [d] holds the mapping [dump], as a whole or under one of its keys *)
Definition carries (d : dict) (dump : dict) : Prop :=
  d = dump \/ exists k, dict_get k d = Some (PyDict dump).

(** The fifteen operations of the client, and what they return. *)
Inductive Operation : Type :=
| op_list_workflows
| op_get_workflow (workflow_id : string)
| op_create_workflow (workflow : WorkflowCreate.t)
| op_update_workflow (workflow_id : string) (updates : WorkflowUpdate.t)
| op_delete_workflow (workflow_id : string)
| op_activate_workflow (workflow_id : string)
| op_deactivate_workflow (workflow_id : string)
| op_execute_workflow (workflow_id : string) (data : option dict)
| op_list_executions (workflow_id : option string) (limit : Z)
| op_get_execution (execution_id : string)
| op_delete_execution (execution_id : string)
| op_list_credentials
| op_get_credential (credential_id : string)
| op_create_credential (credential : CredentialCreate.t)
| op_delete_credential (credential_id : string).

Inductive Returned : Type :=
| a_workflow (w : Workflow.t)
| some_workflows (l : list Workflow.t)
| an_execution (e : Execution.t)
| some_executions (l : list Execution.t)
| a_credential (c : Credential.t)
| some_credentials (l : list Credential.t)
| an_acknowledgment (b : bool).

(** the serialized model instance, when the operation returned one *)
Definition model_instance (v : Returned) : option dict :=
  match v with
  | a_workflow w => Some (Workflow.model_dump w)
  | an_execution e => Some (Execution.model_dump e)
  | a_credential c => Some (Credential.model_dump c)
  | _ => None
  end.

(** the client operation a tool invokes; [list_credential_types] invokes
    none *)
Definition operation_of (call : ToolCall) : option Operation :=
  match call with
  | call_list_workflows => Some op_list_workflows
  | call_get_workflow workflow_id => Some (op_get_workflow workflow_id)
  | call_create_workflow name nodes connections active tags =>
      Some
        (op_create_workflow
           {| WorkflowCreate.name := name;
              WorkflowCreate.nodes := list_or nodes [];
              WorkflowCreate.connections := list_or connections [];
              WorkflowCreate.settings := [];
              WorkflowCreate.active := active;
              WorkflowCreate.tags := list_or tags [] |})
  | call_update_workflow workflow_id name nodes connections =>
      Some
        (op_update_workflow workflow_id
           {| WorkflowUpdate.name := name;
              WorkflowUpdate.nodes := nodes;
              WorkflowUpdate.connections := connections;
              WorkflowUpdate.settings := None;
              WorkflowUpdate.tags := None |})
  | call_delete_workflow workflow_id => Some (op_delete_workflow workflow_id)
  | call_activate_workflow workflow_id =>
      Some (op_activate_workflow workflow_id)
  | call_deactivate_workflow workflow_id =>
      Some (op_deactivate_workflow workflow_id)
  | call_execute_workflow workflow_id data =>
      Some (op_execute_workflow workflow_id data)
  | call_list_executions workflow_id limit =>
      Some (op_list_executions workflow_id limit)
  | call_get_execution execution_id => Some (op_get_execution execution_id)
  | call_delete_execution execution_id =>
      Some (op_delete_execution execution_id)
  | call_list_credentials => Some op_list_credentials
  | call_get_credential credential_id =>
      Some (op_get_credential credential_id)
  | call_create_credential name credential_type data =>
      Some
        (op_create_credential
           {| CredentialCreate.name := name;
              CredentialCreate.type := credential_type;
              CredentialCreate.data := data |})
  | call_delete_credential credential_id =>
      Some (op_delete_credential credential_id)
  | call_list_credential_types => None
  end.

(** the key under which a tool files the serialized result, for the tools
    that file one *)
Definition dump_key (call : ToolCall) : option string :=
  match call with
  | call_get_workflow _ => Some "workflow"
  | call_create_workflow _ _ _ _ _ => Some "workflow"
  | call_update_workflow _ _ _ _ => Some "workflow"
  | call_get_execution _ => Some "execution"
  | call_get_credential _ => Some "credential"
  | call_create_credential _ _ _ => Some "credential"
  | _ => None
  end.

(** the tools that read credentials back *)
Definition reads_credentials (call : ToolCall) : bool :=
  match call with
  | call_list_credentials => true
  | call_get_credential _ => true
  | call_create_credential _ _ _ => true
  | _ => false
  end.

Section Vocabulary.
Context {E : Externals}.

(** running an operation of the client *)
Definition perform (op : Operation) : M Returned :=
  match op with
  | op_list_workflows => l <- client.list_workflows ;; ret (some_workflows l)
  | op_get_workflow workflow_id =>
      w <- client.get_workflow workflow_id ;; ret (a_workflow w)
  | op_create_workflow workflow =>
      w <- client.create_workflow workflow ;; ret (a_workflow w)
  | op_update_workflow workflow_id updates =>
      w <- client.update_workflow workflow_id updates ;; ret (a_workflow w)
  | op_delete_workflow workflow_id =>
      b <- client.delete_workflow workflow_id ;; ret (an_acknowledgment b)
  | op_activate_workflow workflow_id =>
      w <- client.activate_workflow workflow_id ;; ret (a_workflow w)
  | op_deactivate_workflow workflow_id =>
      w <- client.deactivate_workflow workflow_id ;; ret (a_workflow w)
  | op_execute_workflow workflow_id data =>
      e <- client.execute_workflow workflow_id data ;; ret (an_execution e)
  | op_list_executions workflow_id limit =>
      l <- client.list_executions workflow_id limit ;;
      ret (some_executions l)
  | op_get_execution execution_id =>
      e <- client.get_execution execution_id ;; ret (an_execution e)
  | op_delete_execution execution_id =>
      b <- client.delete_execution execution_id ;; ret (an_acknowledgment b)
  | op_list_credentials =>
      l <- client.list_credentials ;; ret (some_credentials l)
  | op_get_credential credential_id =>
      c <- client.get_credential credential_id ;; ret (a_credential c)
  | op_create_credential credential =>
      c <- client.create_credential credential ;; ret (a_credential c)
  | op_delete_credential credential_id =>
      b <- client.delete_credential credential_id ;; ret (an_acknowledgment b)
  end.

(** "the successful envelope's data contains the result serialized to a
    plain mapping", for one call in one state: whenever the operation
    behind the call returns a model instance, the call succeeds with data
    that carry the serialized instance *)
Definition files_serialized_result (call : ToolCall) (p : Process) : Prop :=
  forall (op : Operation) (v : Returned) (dump : dict) (p1 : Process),
    operation_of call = Some op ->
    perform op p = (Return v, p1) ->
    model_instance v = Some dump ->
    exists (r : ToolResponse.t) (p2 : Process) (d : dict),
      invoke call p = (Return r, p2)
      /\ ToolResponse.success r = true
      /\ ToolResponse.data r = Some d
      /\ carries d dump.

(** the outcome is not a [RuntimeError], the class of the closed-handle
    fault *)
Definition no_runtime_error {A : Type} (r : result A) : Prop :=
  forall msg, r <> Raise (RuntimeError msg).

(** started in [q], the computation left an open handle in the client,
    put [request] and nothing else on the wire, and did not end in the
    closed-handle fault *)
Definition went_through {A : Type} (q : Process) (request : Request.t)
    (out : result A * Process) : Prop :=
  no_runtime_error (fst out)
  /\ (exists c : AsyncClient.t,
         _client (self (snd out)) = Some c
         /\ AsyncClient.is_closed c = false)
  /\ wire (snd out) = (wire q ++ [request])%list.

(** a step that only computes: the state is left alone, and no
    [RuntimeError] comes out of it *)
Definition only_computes {A : Type} (m : M A) : Prop :=
  forall q, snd (m q) = q /\ no_runtime_error (fst (m q)).

Definition in_mock_mode (p : Process) : bool :=
  N8NSettings.mock_mode (settings (self p)).

(** the handle the client holds, if any, has not been closed *)
Definition handle_usable (p : Process) : bool :=
  match _client (self p) with
  | Some c => negb (AsyncClient.is_closed c)
  | None => true
  end.

(** a process that has just built its client *)
Definition boot (s : N8NSettings.t) (remote : Remote) : Process :=
  mkProcess (N8NClient_init s) remote [].
End Vocabulary.

(** ** Concrete collaborators, for running the model *)

(** no n8n instance listens: every exchange ends in a transport fault *)
Definition unreachable : Externals :=
  {| Remote := unit;
     transport := fun r _ _ => (inl "All connection attempts failed", r);
     Workflow_validate := fun _ => inl "validation error for Workflow";
     Execution_validate := fun _ => inl "validation error for Execution";
     Credential_validate := fun _ => inl "validation error for Credential";
     logger := Structured;
     served := eq_refl |}.

(** an instance that knows no resource: every exchange is answered 404 *)
Definition answers_404 : Externals :=
  {| Remote := unit;
     transport := fun r _ _ =>
       (inr (Response.mk 404 "Client error '404 Not Found'"
               (inr (PyDict [("message", PyStr "Not Found")]))), r);
     Workflow_validate := fun _ => inl "validation error for Workflow";
     Execution_validate := fun _ => inl "validation error for Execution";
     Credential_validate := fun _ => inl "validation error for Credential";
     logger := Structured;
     served := eq_refl |}.

Definition mock_settings : N8NSettings.t :=
  N8NSettings.mk "http://localhost:5678" "" (QArith_base.Qmake 30 1) true.

Definition live_settings : N8NSettings.t :=
  N8NSettings.mk "http://localhost:5678" "secret-key" (QArith_base.Qmake 30 1)
    false.

Definition mock_process : Process :=
  boot (E := unreachable) mock_settings tt.

Definition live_process : Process :=
  boot (E := unreachable) live_settings tt.

(** ** config.py: the validator of [n8n_url] *)

Module config.
(** what a field validator ends in: the value to store, or a [ValueError] *)
Inductive validated (A : Type) : Type :=
| Valid (a : A)
| ValueError (msg : string).

Arguments Valid {A} a.
Arguments ValueError {A} msg.

(** [v.rstrip("/")] *)
Fixpoint rstrip_slash (v : string) : string :=
  match v with
  | EmptyString => EmptyString
  | String c v' =>
      let r := rstrip_slash v' in
      if String.eqb r "" && Ascii.eqb c "/" then "" else String c r
  end.

(** [v.startswith(("http://", "https://"))] *)
Definition has_scheme (v : string) : bool :=
  String.prefix "http://" v || String.prefix "https://" v.

Definition validate_url (v : string) : validated string :=
  if has_scheme v then Valid (rstrip_slash v)
  else ValueError "n8n_url must start with http:// or https://".

(** [n] slashes *)
Fixpoint slashes (n : nat) : string :=
  match n with
  | O => ""
  | S n' => String "/" (slashes n')
  end.

(** [v.endswith("/")] *)
Fixpoint ends_with_slash (v : string) : bool :=
  match v with
  | EmptyString => false
  | String c EmptyString => Ascii.eqb c "/"
  | String _ v' => ends_with_slash v'
  end.
End config.

(** ** More vocabulary *)

(** the request an operation of the client sends in live mode *)
Definition request_of (op : Operation) : Request.t :=
  match op with
  | op_list_workflows => Request.mk GET "/workflows" None None
  | op_get_workflow workflow_id =>
      Request.mk GET ("/workflows/" ++ workflow_id) None None
  | op_create_workflow workflow =>
      Request.mk POST "/workflows" None
        (Some (WorkflowCreate.model_dump_exclude_none workflow))
  | op_update_workflow workflow_id updates =>
      Request.mk PATCH ("/workflows/" ++ workflow_id) None
        (Some (WorkflowUpdate.model_dump_exclude_none updates))
  | op_delete_workflow workflow_id =>
      Request.mk DELETE ("/workflows/" ++ workflow_id) None None
  | op_activate_workflow workflow_id =>
      Request.mk PATCH ("/workflows/" ++ workflow_id) None
        (Some [("active", PyBool true)])
  | op_deactivate_workflow workflow_id =>
      Request.mk PATCH ("/workflows/" ++ workflow_id) None
        (Some [("active", PyBool false)])
  | op_execute_workflow workflow_id data =>
      Request.mk POST ("/workflows/" ++ workflow_id ++ "/execute") None
        (Some (client.execute_body data))
  | op_list_executions workflow_id limit =>
      Request.mk GET "/executions"
        (Some (client.list_executions_params workflow_id limit)) None
  | op_get_execution execution_id =>
      Request.mk GET ("/executions/" ++ execution_id) None None
  | op_delete_execution execution_id =>
      Request.mk DELETE ("/executions/" ++ execution_id) None None
  | op_list_credentials => Request.mk GET "/credentials" None None
  | op_get_credential credential_id =>
      Request.mk GET ("/credentials/" ++ credential_id) None None
  | op_create_credential credential =>
      Request.mk POST "/credentials" None
        (Some (CredentialCreate.model_dump_exclude_none credential))
  | op_delete_credential credential_id =>
      Request.mk DELETE ("/credentials/" ++ credential_id) None None
  end.

(** the three deletions, which return an acknowledgment *)
Definition deletes (op : Operation) : bool :=
  match op with
  | op_delete_workflow _ => true
  | op_delete_execution _ => true
  | op_delete_credential _ => true
  | _ => false
  end.

(** the three listings, with the empty list of each *)
Definition empty_listing (op : Operation) : option Returned :=
  match op with
  | op_list_workflows => Some (some_workflows [])
  | op_list_executions _ _ => Some (some_executions [])
  | op_list_credentials => Some (some_credentials [])
  | _ => None
  end.

(** the key under which a listing tool files its list *)
Definition list_key (call : ToolCall) : option string :=
  match call with
  | call_list_workflows => Some "workflows"
  | call_list_executions _ _ => Some "executions"
  | call_list_credentials => Some "credentials"
  | _ => None
  end.

(** what may happen to a client between its construction and the end of
    the process *)
Inductive Action : Type :=
| act_perform (op : Operation)
| act_invoke (call : ToolCall)
| act_ensure
| act_close.

Section Sessions.
Context {E : Externals}.

Definition step (a : Action) (p : Process) : Process :=
  match a with
  | act_perform op => snd (perform op p)
  | act_invoke call => snd (invoke call p)
  | act_ensure => snd (client._ensure_client p)
  | act_close => snd (client.close p)
  end.

(** the state after a sequence of actions, the first one first *)
Fixpoint session (l : list Action) (p : Process) : Process :=
  match l with
  | [] => p
  | a :: l' => session l' (step a p)
  end.
End Sessions.

Section Answers.
Context {E : Externals}.

(** the outcome of validating a payload, as what an operation returns *)
Definition instance_of {A : Type} (wrap : A -> Returned) (v : string + A)
    : result Returned :=
  match v with
  | inr a => Return (wrap a)
  | inl msg => Raise (ValidationError msg)
  end.

(** what an operation that returns one model instance makes of the payload
    of the answer *)
Definition validated_answer (op : Operation) (payload : dict)
    : option (result Returned) :=
  match op with
  | op_get_workflow _ => Some (instance_of a_workflow (Workflow_validate payload))
  | op_create_workflow _ =>
      Some (instance_of a_workflow (Workflow_validate payload))
  | op_update_workflow _ _ =>
      Some (instance_of a_workflow (Workflow_validate payload))
  | op_activate_workflow _ =>
      Some (instance_of a_workflow (Workflow_validate payload))
  | op_deactivate_workflow _ =>
      Some (instance_of a_workflow (Workflow_validate payload))
  | op_execute_workflow _ _ =>
      Some (instance_of an_execution (Execution_validate payload))
  | op_get_execution _ =>
      Some (instance_of an_execution (Execution_validate payload))
  | op_get_credential _ =>
      Some (instance_of a_credential (Credential_validate payload))
  | op_create_credential _ =>
      Some (instance_of a_credential (Credential_validate payload))
  | _ => None
  end.
End Answers.

(** an instance that answers every request with [response]; its validators
    accept a mapping with the required string fields and fill in the rest *)
Definition text_field (k : string) (d : dict) : option string :=
  match dict_get k d with
  | Some (PyStr s) => Some s
  | _ => None
  end.

Definition answering (response : Response.t) : Externals :=
  {| Remote := nat;
     transport := fun served _ _ => (inr response, S served);
     Workflow_validate := fun d =>
       match text_field "id" d, text_field "name" d with
       | Some i, Some n =>
           inr {| Workflow.id := i;
                  Workflow.name := n;
                  Workflow.active := false;
                  Workflow.nodes := [];
                  Workflow.connections := [];
                  Workflow.settings := [];
                  Workflow.created_at := None;
                  Workflow.updated_at := None;
                  Workflow.tags := [] |}
       | _, _ => inl "validation error for Workflow"
       end;
     Execution_validate := fun _ => inl "validation error for Execution";
     Credential_validate := fun d =>
       match text_field "id" d, text_field "name" d, text_field "type" d with
       | Some i, Some n, Some t =>
           inr {| Credential.id := i;
                  Credential.name := n;
                  Credential.type := t;
                  Credential.created_at := None;
                  Credential.updated_at := None |}
       | _, _, _ => inl "validation error for Credential"
       end;
     logger := Structured;
     served := eq_refl |}.

(** a 200 answer holding one workflow, an empty 204 answer, and a 200
    answer whose JSON object has no [data] *)
Definition workflow_answer : Response.t :=
  Response.mk 200 ""
    (inr (PyDict [("data", PyDict [("id", PyStr "7"); ("name", PyStr "Seven")])])).

Definition no_content_answer : Response.t :=
  Response.mk 204 "" (inl "Expecting value: line 1 column 1 (char 0)").

Definition bare_answer : Response.t :=
  Response.mk 200 "" (inr (PyDict [("nextCursor", PyNone)])).

Definition not_found_answer : Response.t :=
  Response.mk 404 "Client error '404 Not Found'"
    (inr (PyDict [("message", PyStr "Not Found")])).

(** ** server.py: what [create_app] logs *)

Module server.
Definition APP_VERSION : string := "0.1.0".

(** [create_app], as far as the logger and the client go: the INFO call
    that opens it, the client the tools are registered against, the INFO
    call that ends it.  The hosting application itself is outside the
    repository. *)
Definition create_app (l : Logger) (s : N8NSettings.t) : result N8NClient :=
  match
    Logger_log l logging.INFO "Initializing n8n-mcp server"
      [ ("version", PyStr APP_VERSION);
        ("n8n_url", PyStr (N8NSettings.n8n_url s));
        ("mock_mode", PyBool (N8NSettings.mock_mode s)) ]
  with
  | Raise e => Raise e
  | Return _ =>
      let client := N8NClient_init s in
      match
        Logger_log l logging.INFO "Tools registered"
          [ ("workflow", PyInt 7);
            ("execution", PyInt 4);
            ("credential", PyInt 5) ]
      with
      | Raise e => Raise e
      | Return _ => Return client
      end
  end.
End server.

(** the same environment with another logger *)
Definition with_logger (E : Externals) (l : Logger)
    (Hserved : quiet_info l = true) : Externals :=
  {| Remote := @Remote E;
     transport := @transport E;
     Workflow_validate := @Workflow_validate E;
     Execution_validate := @Execution_validate E;
     Credential_validate := @Credential_validate E;
     logger := l;
     served := Hserved |}.

(** the structured logger cannot be imported and the level is WARNING: the
    instance that answers 404 to everything, and the unreachable one *)
Definition fallback_404 : Externals :=
  with_logger answers_404 (Fallback logging.WARNING) eq_refl.

Definition fallback_unreachable : Externals :=
  with_logger unreachable (Fallback logging.WARNING) eq_refl.

(** the handle a client with [live_settings] opens *)
Definition live_handle : AsyncClient.t :=
  AsyncClient.mk "http://localhost:5678/api/v1"
    [("X-N8N-API-KEY", "secret-key")] (QArith_base.Qmake 30 1) false.

Definition fallback_process : Process :=
  boot (E := fallback_404) live_settings tt.

(** a live client left holding a handle that was closed from outside *)
Definition stale_process : Process :=
  mkProcess (E := unreachable)
    (mkN8NClient live_settings
       (Some
          (AsyncClient.mk "http://localhost:5678/api/v1" []
             (QArith_base.Qmake 30 1) true)))
    tt [].

(** ** Properties *)

Section Envelope.
Context {E : Externals}.

(** [create_app] returns exactly on a logger on which an INFO call with
    keyword arguments returns, and then with a client that holds no
    handle: this is the condition [served] puts on the environment of the
    tools. *)
Lemma create_app_serves (l : Logger) (s : N8NSettings.t) :
  (quiet_info l = true -> server.create_app l s = Return (N8NClient_init s))
  /\ (quiet_info l = false ->
      server.create_app l s
      = Raise
          (TypeError
             "Logger._log() got an unexpected keyword argument 'version'")).
Proof.
  destruct l as [| level]; [split; [reflexivity | discriminate] |].
  destruct level; split; intros Hquiet; try discriminate Hquiet;
    reflexivity.
Qed.

(** In an application that runs, an INFO call returns. *)
Lemma logger_info_returns (event : string) (kwargs : list (string * Any))
    (p : Process) :
  logger_info event kwargs p = (Return tt, p).
Proof.
  unfold logger_info, lift. pose proof served as Hserved.
  destruct logger as [| level]; [reflexivity |].
  destruct level; try discriminate Hserved; reflexivity.
Qed.

(** The ERROR call of a handler returns on a quiet logger and raises
    otherwise. *)
Lemma logger_error_run (event : string) (v : Any) (p : Process) :
  logger_error event [("error", v)] p
  = (if quiet_error logger then Return tt
     else Raise unexpected_error_keyword, p).
Proof.
  unfold logger_error, lift.
  destruct logger as [| level]; [reflexivity |].
  destruct level; reflexivity.
Qed.

(** A tool: the INFO call, then a [try] around "await the client, then
    build the envelope", with a handler that makes its ERROR call and
    builds the failed envelope. *)
Lemma tool_run {A : Type} (event : string) (kwargs : list (string * Any))
    (m : M A) (ok : A -> ToolResponse.t) (failure : string)
    (ko : Exception -> ToolResponse.t) (p : Process) :
  (logger_info event kwargs ;;
   try_except (x <- m ;; ret (ok x))
     (fun e =>
        logger_error failure [("error", PyStr (str e))] ;; ret (ko e))) p
  = match m p with
    | (Return a, p') => (Return (ok a), p')
    | (Raise e, p') =>
        if quiet_error logger then (Return (ko e), p')
        else (Raise unexpected_error_keyword, p')
    end.
Proof.
  unfold bind at 1. rewrite logger_info_returns.
  unfold try_except, bind, ret.
  destruct (m p) as [[a | e] p']; [reflexivity |].
  rewrite logger_error_run.
  destruct (quiet_error logger); reflexivity.
Qed.

Lemma bind_ret_run {A B : Type} (m : M A) (f : A -> B) (p : Process) :
  (x <- m ;; ret (f x)) p =
  match m p with
  | (Return a, p') => (Return (f a), p')
  | (Raise e, p') => (Raise e, p')
  end.
Proof.
  unfold bind, ret.
  destruct (m p) as [[a | e] p']; reflexivity.
Qed.
End Envelope.

(** unfold the tool at the head of the goal down to its client operation *)
Ltac unfold_tool :=
  cbn [invoke operation_of perform];
  unfold workflow_tools.list_workflows, workflow_tools.get_workflow,
    workflow_tools.create_workflow, workflow_tools.update_workflow,
    workflow_tools.delete_workflow, workflow_tools.activate_workflow,
    workflow_tools.deactivate_workflow, execution_tools.execute_workflow,
    execution_tools.list_executions, execution_tools.get_execution,
    execution_tools.delete_execution, credential_tools.list_credentials,
    credential_tools.get_credential, credential_tools.create_credential,
    credential_tools.delete_credential,
    credential_tools.list_credential_types;
  cbv zeta;
  rewrite ?tool_run, ?bind_ret_run.

(** split on the outcome of the client operation the goal runs *)
Ltac client_outcome :=
  match goal with
  | |- context [match ?m ?p with (_, _) => _ end] =>
      destruct (m p) as [[?returned | ?raised] ?after]
  end.

(** split on whether the ERROR call of the handler returns *)
Ltac handler_outcome :=
  match goal with
  | |- context [if quiet_error ?l then _ else _] => destruct (quiet_error l)
  end.

Section EnvelopeShape.
Context {E : Externals}.

(** A tool whose client operation raises returns the failed envelope when
    the ERROR call of its handler returns. *)
Lemma invoke_of_raise_quiet (call : ToolCall) (op : Operation)
    (p p' : Process) (e : Exception) :
  quiet_error logger = true ->
  operation_of call = Some op ->
  perform op p = (Raise e, p') ->
  exists r,
    invoke call p = (Return r, p')
    /\ ToolResponse.success r = false
    /\ ToolResponse.error r = Some (str e)
    /\ ToolResponse.data r = None
    /\ ToolResponse.next_steps r = None.
Proof.
  intros Hquiet Hop Hrun.
  destruct call; try discriminate Hop; injection Hop as <-;
    revert Hrun; unfold_tool; client_outcome; intros Hrun;
    try discriminate Hrun; injection Hrun as <- <-;
    rewrite Hquiet; eexists; repeat split; reflexivity.
Qed.

(** And it raises what the ERROR call raises when that call raises. *)
Lemma invoke_of_raise_loud (call : ToolCall) (op : Operation)
    (p p' : Process) (e : Exception) :
  quiet_error logger = false ->
  operation_of call = Some op ->
  perform op p = (Raise e, p') ->
  invoke call p = (Raise unexpected_error_keyword, p').
Proof.
  intros Hloud Hop Hrun.
  destruct call; try discriminate Hop; injection Hop as <-;
    revert Hrun; unfold_tool; client_outcome; intros Hrun;
    try discriminate Hrun; injection Hrun as <- <-;
    rewrite Hloud; reflexivity.
Qed.

(** C2.  The claim fails on the code.  On the fallback logger with ERROR
    enabled, the ERROR call that opens every handler raises [TypeError] on
    its keyword argument [error]: a tool whose client operation raises
    does not return the failed envelope, it raises that [TypeError] to its
    caller. *)
Theorem handler_logging_raises_out_of_the_tool (call : ToolCall)
    (op : Operation) (p p' : Process) (e : Exception) :
  quiet_error logger = false ->
  operation_of call = Some op ->
  perform op p = (Raise e, p') ->
  invoke call p = (Raise unexpected_error_keyword, p').
Proof. exact (invoke_of_raise_loud call op p p' e). Qed.

(** X19.  Whatever the logger, the state and the mode, an envelope that a
    tool returns has exactly one of the two shapes: success with data and
    without error, or failure with error and without data. *)
Theorem returned_envelope_has_exactly_one_shape (call : ToolCall)
    (p p' : Process) (r : ToolResponse.t) :
  invoke call p = (Return r, p') ->
  xorb (success_envelope r) (failure_envelope r) = true.
Proof.
  destruct call; unfold_tool; try client_outcome; try handler_outcome;
    intros Hcall; try discriminate Hcall; injection Hcall as <- _;
    reflexivity.
Qed.

(** X20.  When the ERROR call of the handlers returns (the structured
    logger, or a fallback logger on which ERROR is not enabled), every
    tool call returns an envelope and never raises; when the client
    operation behind the tool raises [e], the envelope is the failed one
    carrying [str e], and the state is the one the operation left. *)
Theorem tool_call_returns_on_quiet_logger (call : ToolCall) (p : Process) :
  quiet_error logger = true ->
  exists r p',
    invoke call p = (Return r, p')
    /\ match operation_of call with
       | Some op =>
           p' = snd (perform op p)
           /\ match fst (perform op p) with
              | Raise e =>
                  ToolResponse.success r = false
                  /\ ToolResponse.error r = Some (str e)
                  /\ ToolResponse.data r = None
                  /\ ToolResponse.next_steps r = None
              | Return _ => ToolResponse.success r = true
              end
       | None => ToolResponse.success r = true
       end.
Proof.
  intros Hquiet.
  destruct call; unfold_tool; try client_outcome; rewrite ?Hquiet;
    eexists; eexists; (split; [reflexivity | cbn; auto]).
Qed.
End EnvelopeShape.

(** C1.  The claim fails on the code.  The structured logger cannot be
    imported, the level is WARNING, the client is live and the instance
    answers 404: the client operation behind [get_workflow("missing")]
    raises the status error, and the tool returns no envelope at all, so
    neither of the two shapes holds of the invocation. *)
Theorem failed_call_returns_no_envelope :
  fst (perform (op_get_workflow "missing") fallback_process)
  = Raise (HTTPStatusError 404 "Client error '404 Not Found'")
  /\ fst (invoke (call_get_workflow "missing") fallback_process)
     = Raise unexpected_error_keyword
  /\ forall r p',
       invoke (call_get_workflow "missing") fallback_process
       <> (Return r, p').
Proof.
  split; [reflexivity |]. split; [reflexivity |].
  intros r p' Hcall.
  assert (Hrun : fst (invoke (call_get_workflow "missing") fallback_process)
                 = Raise unexpected_error_keyword) by reflexivity.
  rewrite Hcall in Hrun. discriminate Hrun.
Qed.

(** C2 at the same input: the [TypeError] reaches the caller. *)
Lemma handler_logging_raises_out_of_the_tool_witness :
  quiet_error (logger (Externals := fallback_404)) = false
  /\ exists p',
       perform (op_get_workflow "missing") fallback_process
       = (Raise (HTTPStatusError 404 "Client error '404 Not Found'"), p')
       /\ invoke (call_get_workflow "missing") fallback_process
          = (Raise unexpected_error_keyword, p').
Proof.
  split; [reflexivity |].
  eexists. split; [lazy; reflexivity |].
  apply (@handler_logging_raises_out_of_the_tool fallback_404
           (call_get_workflow "missing") (op_get_workflow "missing")
           fallback_process _
           (HTTPStatusError 404 "Client error '404 Not Found'"));
    reflexivity.
Defined.

Section Modes.
Context {E : Externals}.

(** Every operation of the client opens with the same test; in mock mode
    it returns the canned value and leaves the process as it was. *)
Lemma mock_branch {A : Type} (canned : A) (live : M A) (p : Process) :
  in_mock_mode p = true ->
  (mock <- client.mock_mode ;; if mock then ret canned else live) p
  = (Return canned, p).
Proof.
  intros Hmock. unfold bind, client.mock_mode, get_self, ret. cbn.
  unfold in_mock_mode in Hmock. rewrite Hmock. reflexivity.
Qed.

Lemma live_branch {A : Type} (canned : A) (live : M A) (p : Process) :
  in_mock_mode p = false ->
  (mock <- client.mock_mode ;; if mock then ret canned else live) p
  = live p.
Proof.
  intros Hlive. unfold bind, client.mock_mode, get_self, ret. cbn.
  unfold in_mock_mode in Hlive. rewrite Hlive. reflexivity.
Qed.
End Modes.

Section Secrets.
Context {E : Externals}.

Lemma credential_dump_has_no_data_key (c : Credential.t) :
  has_key "data" (PyDict (Credential.model_dump c)) = false.
Proof.
  destruct c as [i n t [created |] [updated |]]; reflexivity.
Qed.

Lemma credential_dumps_have_no_data_key (l : list Credential.t) :
  has_key "data"
    (PyList (map (fun cred => PyDict (Credential.model_dump cred)) l))
  = false.
Proof.
  induction l as [| c l IH]; [reflexivity |].
  change (has_key "data" (PyDict (Credential.model_dump c))
          || has_key "data"
               (PyList
                  (map (fun cred => PyDict (Credential.model_dump cred)) l))
          = false).
  rewrite credential_dump_has_no_data_key, IH. reflexivity.
Qed.

(** C3.  The secret [data] of a credential does not come back.  In mock
    mode two [create_credential] calls that differ only in [data] return
    the same envelope (and leave the same state); and in any mode the
    data of an envelope returned by [list_credentials], [get_credential]
    or [create_credential] has no key [data] at any depth. *)
Theorem credential_secret_not_read_back :
  (forall (name credential_type : string) (secret secret' : dict)
          (p : Process),
      in_mock_mode p = true ->
      credential_tools.create_credential name credential_type secret p
      = credential_tools.create_credential name credential_type secret' p)
  /\ (forall (call : ToolCall) (p p' : Process) (r : ToolResponse.t)
             (d : dict),
         reads_credentials call = true ->
         invoke call p = (Return r, p') ->
         ToolResponse.data r = Some d ->
         has_key "data" (PyDict d) = false).
Proof.
  split.
  - intros name credential_type secret secret' p Hmock.
    unfold credential_tools.create_credential. cbv zeta.
    rewrite !tool_run.
    unfold client.create_credential.
    rewrite !mock_branch by exact Hmock. reflexivity.
  - intros call p p' r d Hreads Hcall Hdata.
    destruct call; try discriminate Hreads; revert Hcall; unfold_tool;
      client_outcome; try handler_outcome; intros Hcall;
      try discriminate Hcall; injection Hcall as <- <-;
      cbn in Hdata; try discriminate Hdata;
      injection Hdata as <-.
    + change (has_key "data"
                (PyList
                   (map (fun cred => PyDict (Credential.model_dump cred))
                      returned))
              || false = false).
      rewrite credential_dumps_have_no_data_key. reflexivity.
    + change (has_key "data" (PyDict (Credential.model_dump returned))
              || false = false).
      rewrite credential_dump_has_no_data_key. reflexivity.
    + change (has_key "data" (PyDict (Credential.model_dump returned))
              || false = false).
      rewrite credential_dump_has_no_data_key. reflexivity.
Qed.
End Secrets.

Section Serialization.
Context {E : Externals}.

(** C4, as amended.  The six tools [get_workflow], [create_workflow],
    [update_workflow], [get_execution], [get_credential] and
    [create_credential] file the serialized result under one key
    ("workflow", "execution" or "credential").  [activate_workflow] and
    [deactivate_workflow] file the requested id and the literal flag, and
    [execute_workflow] files five fields picked from the execution. *)
Theorem result_filed_in_envelope :
  (forall (call : ToolCall) (key : string) (op : Operation)
          (p p1 : Process) (v : Returned) (dump : dict),
      dump_key call = Some key ->
      operation_of call = Some op ->
      perform op p = (Return v, p1) ->
      model_instance v = Some dump ->
      exists r,
        invoke call p = (Return r, p1)
        /\ ToolResponse.success r = true
        /\ ToolResponse.data r = Some [(key, PyDict dump)])
  /\ (forall (workflow_id : string) (p p1 : Process) (w : Workflow.t),
         client.activate_workflow workflow_id p = (Return w, p1) ->
         exists r,
           workflow_tools.activate_workflow workflow_id p = (Return r, p1)
           /\ ToolResponse.success r = true
           /\ ToolResponse.data r
              = Some [ ("workflow_id", PyStr workflow_id);
                       ("active", PyBool true) ])
  /\ (forall (workflow_id : string) (p p1 : Process) (w : Workflow.t),
         client.deactivate_workflow workflow_id p = (Return w, p1) ->
         exists r,
           workflow_tools.deactivate_workflow workflow_id p = (Return r, p1)
           /\ ToolResponse.success r = true
           /\ ToolResponse.data r
              = Some [ ("workflow_id", PyStr workflow_id);
                       ("active", PyBool false) ])
  /\ (forall (workflow_id : string) (data : option dict) (p p1 : Process)
             (e : Execution.t),
         client.execute_workflow workflow_id data p = (Return e, p1) ->
         exists r,
           execution_tools.execute_workflow workflow_id data p
           = (Return r, p1)
           /\ ToolResponse.success r = true
           /\ ToolResponse.data r
              = Some
                  [ ("execution_id", PyStr (Execution.id e));
                    ("workflow_id", PyStr (Execution.workflow_id e));
                    ("status",
                     PyStr (ExecutionStatus.value (Execution.status e)));
                    ("data", py_option PyDict (Execution.data e));
                    ("error", py_option PyStr (Execution.error e)) ]).
Proof.
  repeat split.
  - intros call key op p p1 v dump Hkey Hop Hrun Hdump.
    destruct call; try discriminate Hkey;
      injection Hkey as <-; injection Hop as <-;
      revert Hrun; unfold_tool; client_outcome;
      intros Hrun; try discriminate Hrun;
      injection Hrun as <- <-; injection Hdump as <-;
      eexists; repeat split; reflexivity.
  - intros workflow_id p p1 w Hrun.
    unfold workflow_tools.activate_workflow.
    rewrite tool_run, Hrun.
    eexists; repeat split; reflexivity.
  - intros workflow_id p p1 w Hrun.
    unfold workflow_tools.deactivate_workflow.
    rewrite tool_run, Hrun.
    eexists; repeat split; reflexivity.
  - intros workflow_id data p p1 e Hrun.
    unfold execution_tools.execute_workflow.
    rewrite tool_run, Hrun.
    eexists; repeat split; reflexivity.
Qed.
End Serialization.

(** C4 as stated fails: in mock mode [activate_workflow("7")] succeeds with
    data [{"workflow_id": "7", "active": True}], which neither is nor holds
    the serialized workflow that the client returned; likewise for
    [deactivate_workflow]; and the data of [execute_workflow] are five
    fields of the execution, not its serialization. *)
Lemma activation_tools_do_not_file_the_result :
  ~ files_serialized_result (call_activate_workflow "7") mock_process
  /\ ~ files_serialized_result (call_deactivate_workflow "7") mock_process
  /\ ~ files_serialized_result
        (call_execute_workflow "wf-1" (Some [("x", PyInt 1)])) mock_process.
Proof.
  split; [| split]; intros Hclaim.
  - destruct
      (Hclaim (op_activate_workflow "7")
         (a_workflow (client._mock_activate_workflow "7" true))
         (Workflow.model_dump (client._mock_activate_workflow "7" true))
         mock_process eq_refl eq_refl eq_refl)
      as (r & p2 & d & Hcall & _ & Hdata & Hcarries).
    vm_compute in Hcall. injection Hcall as <- <-.
    cbn in Hdata. injection Hdata as <-.
    destruct Hcarries as [Hsame | [k Hget]]; [discriminate Hsame |].
    cbn in Hget.
    destruct (String.eqb k "workflow_id"); [discriminate Hget |].
    destruct (String.eqb k "active"); discriminate Hget.
  - destruct
      (Hclaim (op_deactivate_workflow "7")
         (a_workflow (client._mock_activate_workflow "7" false))
         (Workflow.model_dump (client._mock_activate_workflow "7" false))
         mock_process eq_refl eq_refl eq_refl)
      as (r & p2 & d & Hcall & _ & Hdata & Hcarries).
    vm_compute in Hcall. injection Hcall as <- <-.
    cbn in Hdata. injection Hdata as <-.
    destruct Hcarries as [Hsame | [k Hget]]; [discriminate Hsame |].
    cbn in Hget.
    destruct (String.eqb k "workflow_id"); [discriminate Hget |].
    destruct (String.eqb k "active"); discriminate Hget.
  - destruct
      (Hclaim (op_execute_workflow "wf-1" (Some [("x", PyInt 1)]))
         (an_execution
            (client._mock_execute_workflow "wf-1" (Some [("x", PyInt 1)])))
         (Execution.model_dump
            (client._mock_execute_workflow "wf-1" (Some [("x", PyInt 1)])))
         mock_process eq_refl eq_refl eq_refl)
      as (r & p2 & d & Hcall & _ & Hdata & Hcarries).
    vm_compute in Hcall. injection Hcall as <- <-.
    cbn in Hdata. injection Hdata as <-.
    destruct Hcarries as [Hsame | [k Hget]]; [discriminate Hsame |].
    cbn in Hget.
    destruct (String.eqb k "execution_id"); [discriminate Hget |].
    destruct (String.eqb k "workflow_id"); [discriminate Hget |].
    destruct (String.eqb k "status"); [discriminate Hget |].
    destruct (String.eqb k "data"); [discriminate Hget |].
    destruct (String.eqb k "error"); discriminate Hget.
Qed.

(** Live mode, the instance answers 404: [get_workflow("missing")] returns
    the failed envelope, with the text of the status error and no data. *)
Example get_missing_workflow_fails :
  fst (invoke (E := answers_404) (call_get_workflow "missing")
         (boot (E := answers_404) live_settings tt))
  = Return
      (ToolResponse.mk false "Failed to get workflow missing" None
         (Some "Client error '404 Not Found'") None).
Proof. reflexivity. Qed.

(** The amended C4 at work, in mock mode: [get_workflow("7")],
    [activate_workflow("7")], [deactivate_workflow("7")] and
    [execute_workflow("wf-1")]. *)
Lemma result_filed_in_envelope_witness :
  (exists r,
      invoke (call_get_workflow "7") mock_process = (Return r, mock_process)
      /\ ToolResponse.success r = true
      /\ ToolResponse.data r
         = Some
             [ ("workflow",
                PyDict (Workflow.model_dump (client._mock_get_workflow "7"))) ])
  /\ (exists r,
         workflow_tools.activate_workflow "7" mock_process
         = (Return r, mock_process)
         /\ ToolResponse.success r = true
         /\ ToolResponse.data r
            = Some [("workflow_id", PyStr "7"); ("active", PyBool true)])
  /\ (exists r,
         workflow_tools.deactivate_workflow "7" mock_process
         = (Return r, mock_process)
         /\ ToolResponse.success r = true
         /\ ToolResponse.data r
            = Some [("workflow_id", PyStr "7"); ("active", PyBool false)])
  /\ (exists r,
         execution_tools.execute_workflow "wf-1" None mock_process
         = (Return r, mock_process)
         /\ ToolResponse.success r = true
         /\ ToolResponse.data r
            = Some
                [ ("execution_id", PyStr "exec-1");
                  ("workflow_id", PyStr "wf-1");
                  ("status", PyStr "success");
                  ("data", PyNone);
                  ("error", PyNone) ]).
Proof.
  split; [| split; [| split]].
  - apply (proj1 (@result_filed_in_envelope unreachable)
             (call_get_workflow "7") "workflow" (op_get_workflow "7")
             mock_process mock_process
             (a_workflow (client._mock_get_workflow "7"))
             (Workflow.model_dump (client._mock_get_workflow "7")));
      reflexivity.
  - apply (proj1 (proj2 (@result_filed_in_envelope unreachable)) "7"
             mock_process mock_process
             (client._mock_activate_workflow "7" true));
      reflexivity.
  - apply (proj1 (proj2 (proj2 (@result_filed_in_envelope unreachable))) "7"
             mock_process mock_process
             (client._mock_activate_workflow "7" false));
      reflexivity.
  - apply (proj2 (proj2 (proj2 (@result_filed_in_envelope unreachable)))
             "wf-1" None mock_process mock_process
             (client._mock_execute_workflow "wf-1" None));
      reflexivity.
Defined.

(** C3 at work: two secrets, one envelope. *)
Lemma credential_secret_not_read_back_witness :
  credential_tools.create_credential "db" "httpBasicAuth"
    [("password", PyStr "hunter2")] mock_process
  = credential_tools.create_credential "db" "httpBasicAuth"
      [("password", PyStr "correct horse")] mock_process
  /\ has_key "data"
       (PyDict
          [ ("credential",
             PyDict
               (Credential.model_dump
                  (client._mock_get_credential "1"))) ])
     = false.
Proof.
  split.
  - apply (proj1 (@credential_secret_not_read_back unreachable)).
    reflexivity.
  - apply (proj2 (@credential_secret_not_read_back unreachable)
             (call_get_credential "1") mock_process mock_process
             (ToolResponse.mk true "Retrieved credential: Credential 1"
                (Some
                   [ ("credential",
                      PyDict
                        (Credential.model_dump
                           (client._mock_get_credential "1"))) ])
                None None));
      reflexivity.
Defined.

Section Lifecycle.
Context {E : Externals}.

Lemma close_forgets_handle (p : Process) :
  client.close p
  = (Return tt, mkProcess (N8NClient_init (settings (self p))) (n8n p) (wire p)).
Proof.
  unfold client.close, bind, get_self, set__client, ret.
  destruct p as [[s [c |]] remote sent]; reflexivity.
Qed.

Lemma ensure_client_opens (q : Process) :
  _client (self q) = None ->
  exists c,
    client._ensure_client q
    = (Return c,
       mkProcess (mkN8NClient (settings (self q)) (Some c)) (n8n q) (wire q))
    /\ AsyncClient.is_closed c = false.
Proof.
  intros Hnone.
  unfold client._ensure_client, bind, get_self, set__client, ret.
  rewrite Hnone. eexists. split; reflexivity.
Qed.

Lemma ensure_client_keeps (q : Process) (c : AsyncClient.t) :
  _client (self q) = Some c -> client._ensure_client q = (Return c, q).
Proof.
  intros Hsome.
  unfold client._ensure_client, bind, get_self, ret.
  rewrite Hsome. reflexivity.
Qed.

(** *** Steps that only compute *)

Lemma no_runtime_error_raise {A B : Type} (e : Exception) :
  no_runtime_error (@Raise A e) -> no_runtime_error (@Raise B e).
Proof.
  intros He msg Heq. apply (He msg).
  injection Heq as ->. reflexivity.
Qed.

Lemma lift_only_computes {A : Type} (r : result A) :
  no_runtime_error r -> only_computes (lift r).
Proof. intros Hr q. split; [reflexivity | exact Hr]. Qed.

Lemma ret_only_computes {A : Type} (a : A) : only_computes (ret a).
Proof. intros q. split; [reflexivity | intros msg; discriminate]. Qed.

Lemma bind_only_computes {A B : Type} (m : M A) (k : A -> M B) :
  only_computes m -> (forall a, only_computes (k a)) ->
  only_computes (x <- m ;; k x).
Proof.
  intros Hm Hk q. unfold bind.
  destruct (Hm q) as [Hstate Hres].
  destruct (m q) as [[a | e] q']; cbn in Hstate, Hres; subst q'.
  - apply Hk.
  - split; [reflexivity | exact (no_runtime_error_raise e Hres)].
Qed.

Lemma raise_for_status_no_runtime_error (response : Response.t) :
  no_runtime_error (Response.raise_for_status response).
Proof.
  unfold Response.raise_for_status.
  destruct (Response.is_success response); intros msg; discriminate.
Qed.

Lemma json_no_runtime_error (response : Response.t) :
  no_runtime_error (Response.json response).
Proof.
  unfold Response.json.
  destruct (Response.body response); intros msg; discriminate.
Qed.

Lemma get_data_no_runtime_error (data default : Any) :
  no_runtime_error (get_data data default).
Proof. destruct data; intros msg; discriminate. Qed.

Lemma construct_no_runtime_error {A : Type} (model : string)
    (validate : dict -> string + A) (v : Any) :
  no_runtime_error (construct model validate v).
Proof.
  destruct v; cbn; try (intros msg; discriminate).
  destruct (validate d); intros msg; discriminate.
Qed.

Lemma comprehension_no_runtime_error {A B : Type} (f : A -> result B)
    (l : list A) :
  (forall x, no_runtime_error (f x)) ->
  no_runtime_error (comprehension f l).
Proof.
  intros Hf. induction l as [| x l IH]; cbn.
  - intros msg; discriminate.
  - pose proof (Hf x) as Hx.
    destruct (f x) as [y | e]; [| exact (no_runtime_error_raise e Hx)].
    destruct (comprehension f l) as [ys | e]; [| exact IH].
    intros msg; discriminate.
Qed.

Lemma construct_one_no_runtime_error {A : Type} (model : string)
    (validate : dict -> string + A) (data : Any) :
  no_runtime_error (construct_one model validate data).
Proof.
  unfold construct_one.
  pose proof (get_data_no_runtime_error data (PyDict [])) as Hget.
  destruct (get_data data (PyDict [])) as [v | e];
    [| exact (no_runtime_error_raise e Hget)].
  apply construct_no_runtime_error.
Qed.

Lemma construct_all_no_runtime_error {A : Type} (model : string)
    (validate : dict -> string + A) (data : Any) :
  no_runtime_error (construct_all model validate data).
Proof.
  unfold construct_all.
  pose proof (get_data_no_runtime_error data (PyList [])) as Hget.
  destruct (get_data data (PyList [])) as [v | e];
    [| exact (no_runtime_error_raise e Hget)].
  assert (Hiter : no_runtime_error (iterate v))
    by (destruct v; intros msg; discriminate).
  destruct (iterate v) as [items | e];
    [| exact (no_runtime_error_raise e Hiter)].
  apply comprehension_no_runtime_error.
  intros x. apply construct_no_runtime_error.
Qed.

Lemma checked_only_computes {A : Type} (response : Response.t)
    (read : Any -> result A) :
  (forall data, no_runtime_error (read data)) ->
  only_computes (client.checked response read).
Proof.
  intros Hread. unfold client.checked.
  apply bind_only_computes;
    [apply lift_only_computes, raise_for_status_no_runtime_error |].
  intros _. apply bind_only_computes;
    [apply lift_only_computes, json_no_runtime_error |].
  intros data. apply lift_only_computes, Hread.
Qed.

Lemma acknowledged_only_computes (response : Response.t) :
  only_computes (lift (Response.raise_for_status response) ;; ret true).
Proof.
  apply bind_only_computes;
    [apply lift_only_computes, raise_for_status_no_runtime_error |].
  intros _. apply ret_only_computes.
Qed.

(** *** One live operation on a client whose handle is absent or open *)

Lemma ensure_client_usable (q : Process) :
  handle_usable q = true ->
  exists c q',
    client._ensure_client q = (Return c, q')
    /\ AsyncClient.is_closed c = false
    /\ _client (self q') = Some c
    /\ n8n q' = n8n q
    /\ wire q' = wire q.
Proof.
  unfold handle_usable. intros Husable.
  destruct (_client (self q)) as [c |] eqn:Hhandle.
  - exists c, q. rewrite (ensure_client_keeps q c Hhandle).
    destruct (AsyncClient.is_closed c); [discriminate Husable |].
    repeat split; assumption.
  - destruct (ensure_client_opens q Hhandle) as (c & Hensure & Hopen).
    eexists; eexists. split; [exact Hensure |].
    repeat split; assumption.
Qed.

Lemma request_goes_through {A : Type} (request : Request.t)
    (k : Response.t -> M A) (q : Process) :
  handle_usable q = true ->
  (forall response, only_computes (k response)) ->
  went_through q request
    ((client <- client._ensure_client ;;
      response <- send client request ;;
      k response) q).
Proof.
  intros Husable Hk.
  destruct (ensure_client_usable q Husable)
    as (c & q' & Hensure & Hopen & Hhandle & Hremote & Hwire).
  unfold bind at 1. rewrite Hensure.
  unfold bind, send. rewrite Hopen, Hremote, Hwire.
  destruct (transport (n8n q) c request) as [[msg | response] remote'].
  - split; [intros msg'; discriminate |].
    split; [exists c; split; assumption | reflexivity].
  - destruct (Hk response (mkProcess (self q') remote' (wire q ++ [request])))
      as [Hstate Hres].
    split; [exact Hres |].
    rewrite Hstate.
    split; [exists c; split; assumption | reflexivity].
Qed.

Lemma went_through_map {A B : Type} (m : M A) (f : A -> B) (q : Process)
    (request : Request.t) :
  went_through q request (m q) ->
  went_through q request ((x <- m ;; ret (f x)) q).
Proof.
  rewrite bind_ret_run.
  destruct (m q) as [[a | e] q']; intros [Hres Hstate]; split; cbn in *.
  - intros msg; discriminate.
  - exact Hstate.
  - exact (no_runtime_error_raise e Hres).
  - exact Hstate.
Qed.

Lemma perform_goes_through (op : Operation) (q : Process) :
  in_mock_mode q = false ->
  handle_usable q = true ->
  exists request, went_through q request (perform op q).
Proof.
  intros Hlive Hnone.
  destruct op; cbn [perform]; eexists; apply went_through_map;
    unfold client.list_workflows, client.get_workflow,
      client.create_workflow, client.update_workflow,
      client.delete_workflow, client.activate_workflow,
      client.deactivate_workflow, client.execute_workflow,
      client.list_executions, client.get_execution,
      client.delete_execution, client.list_credentials,
      client.get_credential, client.create_credential,
      client.delete_credential;
    rewrite live_branch by exact Hlive;
    apply request_goes_through; try exact Hnone; intros response;
    try apply acknowledged_only_computes;
    apply checked_only_computes; intros body;
    first [ apply construct_one_no_runtime_error
          | apply construct_all_no_runtime_error ].
Qed.

(** A handle that was closed behind the client's back is not replaced:
    the operation ends in the closed-handle fault.  This is the failure
    that [close] avoids by forgetting the handle. *)
Remark stale_closed_handle_faults (q : Process) (c : AsyncClient.t) :
  in_mock_mode q = false ->
  _client (self q) = Some c ->
  AsyncClient.is_closed c = true ->
  client.list_workflows q = (Raise AsyncClient.closed_error, q).
Proof.
  intros Hlive Hsome Hclosed.
  unfold client.list_workflows. rewrite live_branch by exact Hlive.
  unfold bind at 1. rewrite (ensure_client_keeps q c Hsome).
  unfold bind, send. rewrite Hclosed. reflexivity.
Qed.

(** C5.  [close] leaves the client as it was when built, without a
    handle; a live-mode operation run after it creates a new, open handle
    through [_ensure_client], puts its request on the wire and does not
    end in the closed-handle fault.  And whenever the client holds no
    handle, [_ensure_client] opens one. *)
Theorem operations_reopen_after_close :
  (forall (op : Operation) (p : Process),
      in_mock_mode p = false ->
      exists closed,
        client.close p = (Return tt, closed)
        /\ closed
           = mkProcess (N8NClient_init (settings (self p))) (n8n p) (wire p)
        /\ fst (perform op closed) <> Raise AsyncClient.closed_error
        /\ exists (c : AsyncClient.t) (request : Request.t),
             _client (self (snd (perform op closed))) = Some c
             /\ AsyncClient.is_closed c = false
             /\ wire (snd (perform op closed))
                = (wire p ++ [request])%list)
  /\ (forall q : Process,
         _client (self q) = None ->
         exists c,
           client._ensure_client q
           = (Return c,
              mkProcess (mkN8NClient (settings (self q)) (Some c)) (n8n q)
                (wire q))
           /\ AsyncClient.is_closed c = false).
Proof.
  split.
  - intros op p Hlive.
    eexists. split; [apply close_forgets_handle |].
    split; [reflexivity |].
    destruct (perform_goes_through op
                (mkProcess (N8NClient_init (settings (self p))) (n8n p)
                   (wire p)) Hlive eq_refl)
      as (request & Hres & Hhandle & Hwire).
    split; [apply Hres |].
    destruct Hhandle as (c & Hsome & Hopen).
    exists c, request. repeat split; assumption.
  - exact ensure_client_opens.
Qed.
End Lifecycle.

(** C5 at work: close, then list the workflows of an unreachable instance;
    the call ends in the transport fault, on a new handle. *)
Lemma operations_reopen_after_close_witness :
  (exists closed,
      client.close live_process = (Return tt, closed)
      /\ closed
         = mkProcess (N8NClient_init (settings (self live_process)))
             (n8n live_process) (wire live_process)
      /\ fst (perform op_list_workflows closed)
         <> Raise AsyncClient.closed_error
      /\ exists (c : AsyncClient.t) (request : Request.t),
           _client (self (snd (perform op_list_workflows closed))) = Some c
           /\ AsyncClient.is_closed c = false
           /\ wire (snd (perform op_list_workflows closed))
              = (wire live_process ++ [request])%list)
  /\ exists c,
       client._ensure_client live_process
       = (Return c,
          mkProcess (mkN8NClient (settings (self live_process)) (Some c))
            (n8n live_process) (wire live_process))
       /\ AsyncClient.is_closed c = false.
Proof.
  split.
  - apply (proj1 (@operations_reopen_after_close unreachable)
             op_list_workflows live_process).
    reflexivity.
  - apply (proj2 (@operations_reopen_after_close unreachable) live_process).
    reflexivity.
Defined.

Section MockMode.
Context {E : Externals}.

(** C6.  In mock mode the client lists exactly two workflows and, for
    every id [s], gets a workflow with id [s] named "Workflow " followed
    by [s]; the tools report the same.  The process comes out as it went
    in: no handle is created and nothing is put on the wire. *)
Theorem mock_workflows_are_canned (p : Process) :
  in_mock_mode p = true ->
  (exists l,
      client.list_workflows p = (Return l, p) /\ length l = 2
      /\ exists r d,
           workflow_tools.list_workflows p = (Return r, p)
           /\ ToolResponse.data r = Some d
           /\ dict_get "count" d = Some (PyInt 2))
  /\ (forall s : string,
         exists w,
           client.get_workflow s p = (Return w, p)
           /\ Workflow.id w = s
           /\ Workflow.name w = "Workflow " ++ s
           /\ exists r,
                workflow_tools.get_workflow s p = (Return r, p)
                /\ ToolResponse.data r
                   = Some [("workflow", PyDict (Workflow.model_dump w))]).
Proof.
  intros Hmock. split.
  - exists client._mock_list_workflows.
    assert (Hrun : client.list_workflows p
                   = (Return client._mock_list_workflows, p))
      by (apply mock_branch; exact Hmock).
    split; [exact Hrun |]. split; [reflexivity |].
    unfold workflow_tools.list_workflows.
    rewrite tool_run, Hrun.
    eexists; eexists. repeat split; reflexivity.
  - intros s. exists (client._mock_get_workflow s).
    assert (Hrun : client.get_workflow s p
                   = (Return (client._mock_get_workflow s), p))
      by (apply mock_branch; exact Hmock).
    split; [exact Hrun |]. split; [reflexivity |]. split; [reflexivity |].
    unfold workflow_tools.get_workflow.
    rewrite tool_run, Hrun.
    eexists. split; reflexivity.
Qed.

(** C7.  In mock mode [execute_workflow("wf-1", {"x": 1})] returns a
    successful envelope whose data have status "success" and whose
    next steps are not empty. *)
Theorem mock_execute_workflow_envelope (p : Process) :
  in_mock_mode p = true ->
  exists r d steps,
    execution_tools.execute_workflow "wf-1" (Some [("x", PyInt 1)]) p
    = (Return r, p)
    /\ ToolResponse.success r = true
    /\ ToolResponse.data r = Some d
    /\ dict_get "status" d = Some (PyStr "success")
    /\ ToolResponse.next_steps r = Some steps
    /\ steps <> [].
Proof.
  intros Hmock.
  unfold execution_tools.execute_workflow.
  rewrite tool_run.
  unfold client.execute_workflow. rewrite mock_branch by exact Hmock.
  eexists; eexists; eexists.
  repeat split; try reflexivity. discriminate.
Qed.

(** C8.  In mock mode [create_workflow(name=N, nodes=[], connections={})]
    returns a workflow named [N]; and [get_workflow] on the id of that
    workflow returns, from any mock-mode state, one and the same
    workflow, whose name is "Workflow " followed by the id. *)
Theorem mock_create_then_get (N : string) (p : Process) :
  in_mock_mode p = true ->
  exists created r,
    client.create_workflow (WorkflowCreate.mk N [] [] [] false []) p
    = (Return created, p)
    /\ workflow_tools.create_workflow N (Some []) (Some []) false None p
       = (Return r, p)
    /\ ToolResponse.data r
       = Some [("workflow", PyDict (Workflow.model_dump created))]
    /\ Workflow.name created = N
    /\ exists w,
         Workflow.name w = "Workflow " ++ Workflow.id created
         /\ forall q : Process,
              in_mock_mode q = true ->
              client.get_workflow (Workflow.id created) q = (Return w, q).
Proof.
  intros Hmock.
  assert (Hrun : client.create_workflow
                   (WorkflowCreate.mk N [] [] [] false []) p
                 = (Return
                      (client._mock_create_workflow
                         (WorkflowCreate.mk N [] [] [] false [])), p))
    by (apply mock_branch; exact Hmock).
  eexists; eexists. split; [exact Hrun |].
  split.
  { unfold workflow_tools.create_workflow. cbv zeta.
    rewrite tool_run. cbn [list_or]. rewrite Hrun.
    reflexivity. }
  split; [reflexivity |]. split; [reflexivity |].
  eexists. split; [| intros q Hq; apply mock_branch; exact Hq].
  reflexivity.
Qed.

(** C9.  [list_credential_types] returns the same successful envelope in
    every state, whatever the mode and whether or not a handle exists;
    the envelope holds the static table of fourteen credential types; the
    process is left as it was and no client operation stands behind the
    tool. *)
Theorem credential_types_are_static (p : Process) :
  invoke call_list_credential_types p
  = (Return
       (ToolResponse.mk true "Common credential types"
          (Some
             [ ("credential_types",
                PyDict credential_tools.credential_types) ])
          None None), p)
  /\ length credential_tools.credential_types = 14
  /\ operation_of call_list_credential_types = None.
Proof. repeat split. Qed.
End MockMode.

Section ExecutionFilter.
Context {E : Externals}.

Lemma list_executions_goes_through (workflow_id : option string) (limit : Z)
    (p : Process) :
  in_mock_mode p = false ->
  handle_usable p = true ->
  went_through p
    (Request.mk GET "/executions"
       (Some (client.list_executions_params workflow_id limit)) None)
    (client.list_executions workflow_id limit p).
Proof.
  intros Hlive Husable.
  unfold client.list_executions. rewrite live_branch by exact Hlive.
  apply request_goes_through; [exact Husable |].
  intros response. apply checked_only_computes.
  intros body. apply construct_all_no_runtime_error.
Qed.

Lemma workflowId_param (workflow_id : option string) (limit : Z) :
  dict_get "workflowId" (client.list_executions_params workflow_id limit)
  = match workflow_id with
    | Some f => if String.eqb f "" then None else Some (PyStr f)
    | None => None
    end.
Proof.
  unfold client.list_executions_params.
  destruct workflow_id as [f |]; [| reflexivity].
  destruct (String.eqb f ""); reflexivity.
Qed.

(** C10.  [list_executions] takes the empty string for no filter.  In
    mock mode the one execution returned has workflow id "1" when the
    filter is [None] or "", and the filter itself otherwise.  In live
    mode the request put on the wire carries a [workflowId] parameter
    exactly when the filter is neither [None] nor "", and then the
    parameter is the filter. *)
Theorem empty_filter_is_no_filter (workflow_id : option string) (limit : Z) :
  (forall p : Process,
      in_mock_mode p = true ->
      exists e,
        client.list_executions workflow_id limit p = (Return [e], p)
        /\ (workflow_id = None \/ workflow_id = Some "" ->
            Execution.workflow_id e = "1")
        /\ (forall f,
               workflow_id = Some f -> f <> "" ->
               Execution.workflow_id e = f))
  /\ (forall p : Process,
         in_mock_mode p = false ->
         handle_usable p = true ->
         exists params,
           wire (snd (client.list_executions workflow_id limit p))
           = (wire p ++ [Request.mk GET "/executions" (Some params) None])%list
           /\ (dict_get "workflowId" params = None
               <-> workflow_id = None \/ workflow_id = Some "")
           /\ (forall f,
                  workflow_id = Some f -> f <> "" ->
                  dict_get "workflowId" params = Some (PyStr f))).
Proof.
  split.
  - intros p Hmock.
    eexists. split; [apply mock_branch; exact Hmock |].
    split.
    + intros [-> | ->]; reflexivity.
    + intros f -> Hf. cbn.
      destruct (String.eqb_spec f ""); [contradiction | reflexivity].
  - intros p Hlive Husable.
    exists (client.list_executions_params workflow_id limit).
    destruct (list_executions_goes_through workflow_id limit p Hlive Husable)
      as (_ & _ & Hwire).
    split; [exact Hwire |].
    rewrite workflowId_param.
    split.
    + destruct workflow_id as [f |]; [| tauto].
      destruct (String.eqb_spec f "") as [-> | Hf].
      * tauto.
      * split; [discriminate |].
        intros [Hnone | Hempty]; [discriminate Hnone |].
        injection Hempty as ->. contradiction.
    + intros f -> Hf.
      destruct (String.eqb_spec f ""); [contradiction | reflexivity].
Qed.
End ExecutionFilter.

(** C6 at work, on the mock process. *)
Lemma mock_workflows_are_canned_witness :
  in_mock_mode mock_process = true
  /\ exists w,
       client.get_workflow "42" mock_process = (Return w, mock_process)
       /\ Workflow.id w = "42"
       /\ Workflow.name w = "Workflow 42"
       /\ exists r,
            workflow_tools.get_workflow "42" mock_process
            = (Return r, mock_process)
            /\ ToolResponse.data r
               = Some [("workflow", PyDict (Workflow.model_dump w))].
Proof.
  split; [reflexivity |].
  apply (proj2 (@mock_workflows_are_canned unreachable mock_process eq_refl)
           "42").
Defined.

(** C7 at work, on the mock process. *)
Lemma mock_execute_workflow_envelope_witness :
  in_mock_mode mock_process = true
  /\ exists r d steps,
       execution_tools.execute_workflow "wf-1" (Some [("x", PyInt 1)])
         mock_process
       = (Return r, mock_process)
       /\ ToolResponse.success r = true
       /\ ToolResponse.data r = Some d
       /\ dict_get "status" d = Some (PyStr "success")
       /\ ToolResponse.next_steps r = Some steps
       /\ steps <> [].
Proof.
  split; [reflexivity |].
  apply (@mock_execute_workflow_envelope unreachable mock_process).
  reflexivity.
Defined.

(** C8 at work: the workflow "N" of the claim. *)
Lemma mock_create_then_get_witness :
  in_mock_mode mock_process = true
  /\ exists created r,
       client.create_workflow (WorkflowCreate.mk "N" [] [] [] false [])
         mock_process
       = (Return created, mock_process)
       /\ workflow_tools.create_workflow "N" (Some []) (Some []) false None
            mock_process
          = (Return r, mock_process)
       /\ ToolResponse.data r
          = Some [("workflow", PyDict (Workflow.model_dump created))]
       /\ Workflow.name created = "N"
       /\ exists w,
            Workflow.name w = "Workflow " ++ Workflow.id created
            /\ forall q : @Process unreachable,
                 in_mock_mode q = true ->
                 client.get_workflow (Workflow.id created) q = (Return w, q).
Proof.
  split; [reflexivity |].
  apply (@mock_create_then_get unreachable "N" mock_process).
  reflexivity.
Defined.

(** C10 at work: the empty filter in mock mode and on the wire. *)
Lemma empty_filter_is_no_filter_witness :
  (exists e,
      client.list_executions (Some "") 50 mock_process
      = (Return [e], mock_process)
      /\ (Some "" = None \/ Some "" = Some "" -> Execution.workflow_id e = "1")
      /\ (forall f, Some "" = Some f -> f <> "" -> Execution.workflow_id e = f))
  /\ exists params,
       wire (snd (client.list_executions (Some "") 50 live_process))
       = (wire live_process
          ++ [Request.mk GET "/executions" (Some params) None])%list
       /\ (dict_get "workflowId" params = None
           <-> Some "" = None \/ Some "" = Some "")
       /\ (forall f,
              Some "" = Some f -> f <> "" ->
              dict_get "workflowId" params = Some (PyStr f)).
Proof.
  split.
  - apply (proj1 (@empty_filter_is_no_filter unreachable (Some "") 50%Z)
             mock_process).
    reflexivity.
  - apply (proj2 (@empty_filter_is_no_filter unreachable (Some "") 50%Z)
             live_process); reflexivity.
Defined.

(** ** Further properties of the client and of the tools *)

(** unfold the client operation at the head of the goal *)
Ltac unfold_operation :=
  unfold client.list_workflows, client.get_workflow, client.create_workflow,
    client.update_workflow, client.delete_workflow, client.activate_workflow,
    client.deactivate_workflow, client.execute_workflow,
    client.list_executions, client.get_execution, client.delete_execution,
    client.list_credentials, client.get_credential, client.create_credential,
    client.delete_credential.

Section LiveRuns.
Context {E : Externals}.

(** [_ensure_client] returns a handle, keeps it in the client and touches
    neither the settings, nor the remote side, nor the wire. *)
Lemma ensure_client_frame (p : Process) :
  exists c q,
    client._ensure_client p = (Return c, q)
    /\ _client (self q) = Some c
    /\ settings (self q) = settings (self p)
    /\ n8n q = n8n p
    /\ wire q = wire p.
Proof.
  destruct (_client (self p)) as [c |] eqn:Hhandle.
  - exists c, p. rewrite (ensure_client_keeps p c Hhandle).
    repeat split. exact Hhandle.
  - destruct (ensure_client_opens p Hhandle) as (c & Hensure & _).
    eexists; eexists. split; [exact Hensure |]. repeat split.
Qed.

(** A live operation, once the handle and the answer of the remote side are
    known. *)
Lemma request_run {A : Type} (request : Request.t) (k : Response.t -> M A)
    (p q : Process) (c : AsyncClient.t) (answer : string + Response.t)
    (remote' : Remote) :
  client._ensure_client p = (Return c, q) ->
  AsyncClient.is_closed c = false ->
  transport (n8n p) c request = (answer, remote') ->
  (client <- client._ensure_client ;;
   response <- send client request ;;
   k response) p
  = match answer with
    | inl msg =>
        (Raise (TransportError msg),
         mkProcess (self q) remote' (wire p ++ [request]))
    | inr response =>
        k response (mkProcess (self q) remote' (wire p ++ [request]))
    end.
Proof.
  intros Hensure Hopen Hanswer.
  destruct (ensure_client_frame p)
    as (c' & q' & Hensure' & _ & _ & Hremote & Hwire).
  rewrite Hensure in Hensure'. injection Hensure' as <- <-.
  unfold bind at 1. rewrite Hensure.
  unfold bind, send. rewrite Hopen, Hremote, Hwire, Hanswer.
  destruct answer as [msg | response]; reflexivity.
Qed.

(** The state a tool leaves is the state its client operation leaves. *)
Lemma invoke_state (call : ToolCall) (p : Process) :
  snd (invoke call p)
  = match operation_of call with
    | Some op => snd (perform op p)
    | None => p
    end.
Proof.
  destruct call; unfold_tool; try client_outcome; try handler_outcome;
    reflexivity.
Qed.

(** In mock mode an operation returns and leaves the process alone. *)
Lemma perform_in_mock_mode (op : Operation) (p : Process) :
  in_mock_mode p = true -> exists v, perform op p = (Return v, p).
Proof.
  intros Hmock.
  destruct op; cbn [perform]; rewrite bind_ret_run; unfold_operation;
    rewrite mock_branch by exact Hmock; eexists; reflexivity.
Qed.

(** X1.  In mock mode every operation of the client returns and every tool
    returns a successful envelope with data, and the process comes out as
    it went in: no handle is created, nothing is put on the wire, the
    remote side is not touched. *)
Theorem mock_mode_always_succeeds (p : Process) :
  in_mock_mode p = true ->
  (forall op : Operation, exists v, perform op p = (Return v, p))
  /\ (forall call : ToolCall,
         exists r,
           invoke call p = (Return r, p)
           /\ success_envelope r = true).
Proof.
  intros Hmock. split.
  - intros op. apply perform_in_mock_mode. exact Hmock.
  - intros call.
    destruct call; unfold_tool; unfold_operation;
      rewrite ?mock_branch by exact Hmock;
      eexists; split; reflexivity.
Qed.
End LiveRuns.

Section LiveRequests.
Context {E : Externals}.

Lemma perform_sends (op : Operation) (p : Process) :
  in_mock_mode p = false ->
  handle_usable p = true ->
  went_through p (request_of op) (perform op p).
Proof.
  intros Hlive Husable.
  destruct op; cbn [perform request_of]; apply went_through_map;
    unfold_operation; rewrite live_branch by exact Hlive;
    apply request_goes_through; try exact Husable; intros response;
    try apply acknowledged_only_computes;
    apply checked_only_computes; intros body;
    first [ apply construct_one_no_runtime_error
          | apply construct_all_no_runtime_error ].
Qed.

(** X2.  In live mode, on a client whose handle is absent or open, every
    operation puts exactly one request on the wire, the one [request_of]
    gives (method, path, query parameters and JSON body), and leaves an
    open handle in the client. *)
Theorem live_operation_sends_its_request (op : Operation) (p : Process) :
  in_mock_mode p = false ->
  handle_usable p = true ->
  wire (snd (perform op p)) = (wire p ++ [request_of op])%list
  /\ exists c,
       _client (self (snd (perform op p))) = Some c
       /\ AsyncClient.is_closed c = false.
Proof.
  intros Hlive Husable.
  destruct (perform_sends op p Hlive Husable) as (_ & Hhandle & Hwire).
  split; assumption.
Qed.

Lemma perform_fault (op : Operation) (p q : Process) (c : AsyncClient.t)
    (msg : string) (remote' : Remote) :
  in_mock_mode p = false ->
  client._ensure_client p = (Return c, q) ->
  AsyncClient.is_closed c = false ->
  transport (n8n p) c (request_of op) = (inl msg, remote') ->
  perform op p
  = (Raise (TransportError msg),
     mkProcess (self q) remote' (wire p ++ [request_of op])).
Proof.
  intros Hlive Hensure Hopen Hanswer.
  destruct op; cbn [perform request_of] in *; rewrite bind_ret_run;
    unfold_operation; rewrite live_branch by exact Hlive;
    rewrite (request_run _ _ p q c _ remote' Hensure Hopen Hanswer);
    reflexivity.
Qed.

Lemma perform_refused (op : Operation) (p q : Process) (c : AsyncClient.t)
    (response : Response.t) (remote' : Remote) :
  in_mock_mode p = false ->
  client._ensure_client p = (Return c, q) ->
  AsyncClient.is_closed c = false ->
  transport (n8n p) c (request_of op) = (inr response, remote') ->
  Response.is_success response = false ->
  perform op p
  = (Raise
       (HTTPStatusError (Response.status_code response)
          (Response.error_text response)),
     mkProcess (self q) remote' (wire p ++ [request_of op])).
Proof.
  intros Hlive Hensure Hopen Hanswer Hstatus.
  destruct op; cbn [perform request_of] in *; rewrite bind_ret_run;
    unfold_operation; rewrite live_branch by exact Hlive;
    rewrite (request_run _ _ p q c _ remote' Hensure Hopen Hanswer);
    unfold client.checked, bind, lift, Response.raise_for_status;
    rewrite Hstatus; reflexivity.
Qed.

(** X3.  In live mode a transport fault on the request of an operation
    ends the operation in a [TransportError] with the text of the fault;
    the request stays on the wire and the handle stays in the client.  The
    tool then returns the failed envelope whose error is that text when
    the ERROR call of its handler returns, and raises the [TypeError] of
    that call when it does not. *)
Theorem transport_fault_surfaces (call : ToolCall) (op : Operation)
    (p q : Process) (c : AsyncClient.t) (msg : string) (remote' : Remote) :
  in_mock_mode p = false ->
  operation_of call = Some op ->
  client._ensure_client p = (Return c, q) ->
  AsyncClient.is_closed c = false ->
  transport (n8n p) c (request_of op) = (inl msg, remote') ->
  perform op p
  = (Raise (TransportError msg),
     mkProcess (self q) remote' (wire p ++ [request_of op]))
  /\ (quiet_error logger = true ->
      exists r,
        invoke call p
        = (Return r, mkProcess (self q) remote' (wire p ++ [request_of op]))
        /\ ToolResponse.success r = false
        /\ ToolResponse.error r = Some msg
        /\ ToolResponse.data r = None)
  /\ (quiet_error logger = false ->
      invoke call p
      = (Raise unexpected_error_keyword,
         mkProcess (self q) remote' (wire p ++ [request_of op]))).
Proof.
  intros Hlive Hop Hensure Hopen Hanswer.
  pose proof (perform_fault op p q c msg remote' Hlive Hensure Hopen Hanswer)
    as Hrun.
  split; [exact Hrun |]. split.
  - intros Hquiet.
    destruct (invoke_of_raise_quiet call op p _ _ Hquiet Hop Hrun)
      as (r & Hcall & Hsuccess & Herror & Hdata & _).
    exists r. repeat split; assumption.
  - intros Hloud. exact (invoke_of_raise_loud call op p _ _ Hloud Hop Hrun).
Qed.

(** X4.  In live mode an answer whose status is not 2xx ends the operation
    in an [HTTPStatusError] with that status, whatever the body holds.  The
    tool then returns the failed envelope whose error is the text of the
    status error when the ERROR call of its handler returns, and raises
    the [TypeError] of that call when it does not. *)
Theorem refused_status_surfaces (call : ToolCall) (op : Operation)
    (p q : Process) (c : AsyncClient.t) (response : Response.t)
    (remote' : Remote) :
  in_mock_mode p = false ->
  operation_of call = Some op ->
  client._ensure_client p = (Return c, q) ->
  AsyncClient.is_closed c = false ->
  transport (n8n p) c (request_of op) = (inr response, remote') ->
  Response.is_success response = false ->
  perform op p
  = (Raise
       (HTTPStatusError (Response.status_code response)
          (Response.error_text response)),
     mkProcess (self q) remote' (wire p ++ [request_of op]))
  /\ (quiet_error logger = true ->
      exists r,
        invoke call p
        = (Return r, mkProcess (self q) remote' (wire p ++ [request_of op]))
        /\ ToolResponse.success r = false
        /\ ToolResponse.error r = Some (Response.error_text response)
        /\ ToolResponse.data r = None)
  /\ (quiet_error logger = false ->
      invoke call p
      = (Raise unexpected_error_keyword,
         mkProcess (self q) remote' (wire p ++ [request_of op]))).
Proof.
  intros Hlive Hop Hensure Hopen Hanswer Hstatus.
  pose proof (perform_refused op p q c response remote' Hlive Hensure Hopen
                Hanswer Hstatus) as Hrun.
  split; [exact Hrun |]. split.
  - intros Hquiet.
    destruct (invoke_of_raise_quiet call op p _ _ Hquiet Hop Hrun)
      as (r & Hcall & Hsuccess & Herror & Hdata & _).
    exists r. repeat split; assumption.
  - intros Hloud. exact (invoke_of_raise_loud call op p _ _ Hloud Hop Hrun).
Qed.
End LiveRequests.

Section LiveAnswers.
Context {E : Externals}.

(** A tool whose client operation returns, returns a successful envelope. *)
Lemma invoke_of_return (call : ToolCall) (op : Operation) (p p' : Process)
    (v : Returned) :
  operation_of call = Some op ->
  perform op p = (Return v, p') ->
  exists r,
    invoke call p = (Return r, p')
    /\ success_envelope r = true.
Proof.
  intros Hop Hrun.
  destruct call; try discriminate Hop; injection Hop as <-;
    revert Hrun; unfold_tool; client_outcome; intros Hrun;
    try discriminate Hrun; injection Hrun as _ <-;
    eexists; split; reflexivity.
Qed.

(** X5.  In live mode a deletion is acknowledged as soon as the status of
    the answer is 2xx: the body is not decoded, so an answer without a JSON
    body acknowledges too, and the tool returns a successful envelope. *)
Theorem deletion_acknowledged_on_status (call : ToolCall) (op : Operation)
    (p q : Process) (c : AsyncClient.t) (response : Response.t)
    (remote' : Remote) :
  in_mock_mode p = false ->
  operation_of call = Some op ->
  deletes op = true ->
  client._ensure_client p = (Return c, q) ->
  AsyncClient.is_closed c = false ->
  transport (n8n p) c (request_of op) = (inr response, remote') ->
  Response.is_success response = true ->
  perform op p
  = (Return (an_acknowledgment true),
     mkProcess (self q) remote' (wire p ++ [request_of op]))
  /\ exists r,
       invoke call p
       = (Return r, mkProcess (self q) remote' (wire p ++ [request_of op]))
       /\ success_envelope r = true.
Proof.
  intros Hlive Hop Hdeletes Hensure Hopen Hanswer Hstatus.
  assert (Hrun : perform op p
                 = (Return (an_acknowledgment true),
                    mkProcess (self q) remote' (wire p ++ [request_of op]))).
  { destruct op; try discriminate Hdeletes;
      cbn [perform request_of] in *; rewrite bind_ret_run;
      unfold_operation; rewrite live_branch by exact Hlive;
      rewrite (request_run _ _ p q c _ remote' Hensure Hopen Hanswer);
      unfold bind, lift, ret, Response.raise_for_status;
      rewrite Hstatus; reflexivity. }
  split; [exact Hrun |].
  exact (invoke_of_return call op p _ _ Hop Hrun).
Qed.

(** X6.  In live mode a listing answered 2xx with a JSON object that has no
    key [data] returns the empty list, and the tool reports a count of 0. *)
Theorem listing_without_data_is_empty (call : ToolCall) (op : Operation)
    (empty : Returned) (p q : Process) (c : AsyncClient.t)
    (response : Response.t) (remote' : Remote) (body : dict) :
  in_mock_mode p = false ->
  operation_of call = Some op ->
  empty_listing op = Some empty ->
  client._ensure_client p = (Return c, q) ->
  AsyncClient.is_closed c = false ->
  transport (n8n p) c (request_of op) = (inr response, remote') ->
  Response.is_success response = true ->
  Response.body response = inr (PyDict body) ->
  dict_get "data" body = None ->
  perform op p
  = (Return empty, mkProcess (self q) remote' (wire p ++ [request_of op]))
  /\ exists r d,
       invoke call p
       = (Return r, mkProcess (self q) remote' (wire p ++ [request_of op]))
       /\ ToolResponse.success r = true
       /\ ToolResponse.data r = Some d
       /\ dict_get "count" d = Some (PyInt 0).
Proof.
  intros Hlive Hop Hempty Hensure Hopen Hanswer Hstatus Hbody Hdata.
  assert (Hrun : perform op p
                 = (Return empty,
                    mkProcess (self q) remote' (wire p ++ [request_of op]))).
  { destruct op; try discriminate Hempty; injection Hempty as <-;
      cbn [perform request_of] in *; rewrite bind_ret_run;
      unfold_operation; rewrite live_branch by exact Hlive;
      rewrite (request_run _ _ p q c _ remote' Hensure Hopen Hanswer);
      unfold client.checked, bind, lift, ret, Response.raise_for_status,
        Response.json, construct_all;
      rewrite Hstatus, Hbody; cbn [get_data]; rewrite Hdata;
      reflexivity. }
  split; [exact Hrun |].
  destruct call; try discriminate Hop; injection Hop as <-;
    try discriminate Hempty; injection Hempty as <-;
    revert Hrun; unfold_tool; client_outcome; intros Hrun;
    try discriminate Hrun; injection Hrun as -> ->;
    eexists; eexists; repeat split; reflexivity.
Qed.

(** X7.  In any mode, when a listing tool succeeds, the count it files is
    the length of the list it files, and the message states that count. *)
Theorem listing_count_matches (call : ToolCall) (key : string) (p : Process)
    (r : ToolResponse.t) (d : dict) :
  list_key call = Some key ->
  fst (invoke call p) = Return r ->
  ToolResponse.data r = Some d ->
  exists items,
    dict_get key d = Some (PyList items)
    /\ dict_get "count" d = Some (PyInt (Z.of_nat (length items)))
    /\ ToolResponse.message r
       = "Found " ++ str_of_nat (length items) ++ " " ++ key.
Proof.
  intros Hkey Hcall Hdata.
  destruct call; try discriminate Hkey; injection Hkey as <-;
    revert Hcall; unfold_tool; client_outcome; try handler_outcome;
    cbn [fst]; intros Hcall; try discriminate Hcall;
    injection Hcall as <-;
    cbn in Hdata; try discriminate Hdata; injection Hdata as <-;
    eexists; (split; [reflexivity |]);
    rewrite length_map; split; reflexivity.
Qed.
End LiveAnswers.

Section Comprehensions.
Context {A B : Type}.
Variable f : A -> result B.

Lemma comprehension_returns (l : list A) (ys : list B) :
  comprehension f l = Return ys
  <-> Forall2 (fun x y => f x = Return y) l ys.
Proof.
  revert ys. induction l as [| x l IH]; intros ys; cbn.
  - split.
    + intros Hrun. injection Hrun as <-. constructor.
    + intros Hall. inversion Hall. reflexivity.
  - split.
    + intros Hrun.
      destruct (f x) as [y | e] eqn:Hx; [| discriminate Hrun].
      destruct (comprehension f l) as [ys' | e] eqn:Hl; [| discriminate Hrun].
      injection Hrun as <-. constructor; [exact Hx |].
      apply IH. reflexivity.
    + intros Hall. inversion Hall as [| x' y l' ys' Hx Hrest]; subst.
      rewrite Hx. apply IH in Hrest. rewrite Hrest. reflexivity.
Qed.

Lemma comprehension_raises (l : list A) (e : Exception) :
  comprehension f l = Raise e
  <-> exists pre x post,
        l = (pre ++ x :: post)%list
        /\ Forall (fun x' => exists y, f x' = Return y) pre
        /\ f x = Raise e.
Proof.
  induction l as [| x l IH]; cbn.
  - split; [discriminate |].
    intros (pre & x & post & Hl & _). destruct pre; discriminate Hl.
  - split.
    + intros Hrun.
      destruct (f x) as [y | e'] eqn:Hx.
      * destruct (comprehension f l) as [ys | e'] eqn:Hl;
          [discriminate Hrun |].
        injection Hrun as ->.
        destruct (proj1 IH eq_refl) as (pre & x' & post & -> & Hpre & Hx').
        exists (x :: pre), x', post.
        repeat split; [| exact Hx'].
        constructor; [exists y; exact Hx | exact Hpre].
      * injection Hrun as ->.
        exists [], x, l. repeat split; [constructor | exact Hx].
    + intros (pre & x' & post & Hl & Hpre & Hx').
      destruct pre as [| x0 pre]; cbn in Hl; injection Hl as -> ->.
      * rewrite Hx'. reflexivity.
      * inversion Hpre as [| ? ? [y Hy] Hrest]; subst.
        rewrite Hy.
        assert (Htail : comprehension f (pre ++ x' :: post) = Raise e)
          by (apply IH; exists pre, x', post; repeat split; assumption).
        rewrite Htail. reflexivity.
Qed.
End Comprehensions.

Section Listings.
Context {A : Type}.
Variable model : string.
Variable validate : dict -> string + A.

(** X8.  A listing is all or nothing.  When the [data] of the decoded body
    is a list, the listing returns exactly when every item is a mapping
    that validates, and then one instance per item, in order; otherwise it
    raises what the first item that is not a valid mapping raises, and no
    shorter list comes out. *)
Theorem listing_is_all_or_nothing (body : dict) (items : list Any) :
  dict_get "data" body = Some (PyList items) ->
  (forall l,
      construct_all model validate (PyDict body) = Return l
      <-> Forall2
            (fun item a => exists d, item = PyDict d /\ validate d = inr a)
            items l)
  /\ (forall e,
         construct_all model validate (PyDict body) = Raise e
         <-> exists pre item post,
               items = (pre ++ item :: post)%list
               /\ Forall
                    (fun item' =>
                       exists d a, item' = PyDict d /\ validate d = inr a)
                    pre
               /\ construct model validate item = Raise e).
Proof.
  intros Hdata.
  assert (Hrun : construct_all model validate (PyDict body)
                 = comprehension (construct model validate) items)
    by (unfold construct_all; cbn [get_data]; rewrite Hdata; reflexivity).
  assert (Hitem : forall item a,
             construct model validate item = Return a
             <-> exists d, item = PyDict d /\ validate d = inr a).
  { intros item a. split.
    - destruct item; cbn; try discriminate.
      destruct (validate d) as [msg | a'] eqn:Hd; [discriminate |].
      intros Heq. injection Heq as ->. exists d. split; [reflexivity | exact Hd].
    - intros (d & -> & Hd). cbn. rewrite Hd. reflexivity. }
  rewrite Hrun. split.
  - intros l. rewrite comprehension_returns.
    split; apply Forall2_impl; intros item a; apply Hitem.
  - intros e. rewrite comprehension_raises.
    split; intros (pre & item & post & Hitems & Hpre & Hraise);
      exists pre, item, post; (split; [exact Hitems |]);
      (split; [| exact Hraise]); revert Hpre; apply Forall_impl.
    + intros item' [a Ha].
      destruct (proj1 (Hitem item' a) Ha) as (d & Hd & Hv).
      exists d, a. split; assumption.
    + intros item' (d & a & Hd & Hv).
      exists a. apply Hitem. exists d. split; assumption.
Qed.
End Listings.

Section RequestBodies.
Context {E : Externals}.

Lemma invoke_sends (call : ToolCall) (op : Operation) (p : Process) :
  operation_of call = Some op ->
  in_mock_mode p = false ->
  handle_usable p = true ->
  wire (snd (invoke call p)) = (wire p ++ [request_of op])%list.
Proof.
  intros Hop Hlive Husable.
  rewrite invoke_state, Hop.
  apply (perform_sends op p Hlive Husable).
Qed.

(** X9.  In live mode the [update_workflow] tool sends a PATCH whose JSON
    body holds [name], [nodes] and [connections] exactly when the argument
    is not [None], with the argument as value, and holds no other key: an
    update without arguments sends the empty mapping. *)
Theorem update_sends_only_given_fields (workflow_id : string)
    (name : option string) (nodes : option (list dict))
    (connections : option dict) (p : Process) :
  in_mock_mode p = false ->
  handle_usable p = true ->
  exists body,
    wire (snd (invoke (call_update_workflow workflow_id name nodes connections)
                 p))
    = (wire p
       ++ [Request.mk PATCH ("/workflows/" ++ workflow_id) None (Some body)])%list
    /\ dict_get "name" body = option_map PyStr name
    /\ dict_get "nodes" body
       = option_map (fun l => PyList (map PyDict l)) nodes
    /\ dict_get "connections" body = option_map PyDict connections
    /\ (forall k,
           k <> "name" -> k <> "nodes" -> k <> "connections" ->
           dict_get k body = None)
    /\ (name = None -> nodes = None -> connections = None -> body = []).
Proof.
  intros Hlive Husable.
  eexists. split.
  { apply (invoke_sends
             (call_update_workflow workflow_id name nodes connections) _ p
             eq_refl Hlive Husable). }
  unfold WorkflowUpdate.model_dump_exclude_none. cbn.
  repeat split.
  - destruct name, nodes, connections; reflexivity.
  - destruct name, nodes, connections; reflexivity.
  - destruct name, nodes, connections; reflexivity.
  - intros k Hname Hnodes Hconnections.
    apply String.eqb_neq in Hname, Hnodes, Hconnections.
    destruct name, nodes, connections; cbn;
      rewrite ?Hname, ?Hnodes, ?Hconnections; reflexivity.
  - intros -> -> ->. reflexivity.
Qed.

(** X10.  In live mode the [execute_workflow] tool posts the input data
    under the key [data] only when there are some: without data, or with
    the empty mapping, the JSON body is the empty mapping. *)
Theorem execute_sends_data_when_non_empty (workflow_id : string)
    (data : option dict) (p : Process) :
  in_mock_mode p = false ->
  handle_usable p = true ->
  exists body,
    wire (snd (invoke (call_execute_workflow workflow_id data) p))
    = (wire p
       ++ [Request.mk POST ("/workflows/" ++ workflow_id ++ "/execute") None
             (Some body)])%list
    /\ (data = None \/ data = Some [] -> body = [])
    /\ (forall d, data = Some d -> d <> [] -> body = [("data", PyDict d)]).
Proof.
  intros Hlive Husable.
  eexists. split.
  { apply (invoke_sends (call_execute_workflow workflow_id data) _ p eq_refl
             Hlive Husable). }
  split.
  - intros [-> | ->]; reflexivity.
  - intros d -> Hd. destruct d as [| item d]; [contradiction |]. reflexivity.
Qed.
End RequestBodies.

Section HandleLifecycle.
Context {E : Externals}.

(** X11.  [_ensure_client] is lazy and idempotent: a handle the client
    holds is returned as it is and nothing changes; without one, a handle
    is built from the settings (base URL [n8n_url] followed by "/api/v1",
    the timeout, the API key header exactly when the key is not empty),
    and a second call returns that same handle and changes nothing. *)
Theorem ensure_client_is_lazy_and_idempotent (p : Process) :
  (exists c q,
      client._ensure_client p = (Return c, q)
      /\ client._ensure_client q = (Return c, q))
  /\ (forall c,
         _client (self p) = Some c -> client._ensure_client p = (Return c, p))
  /\ (_client (self p) = None ->
      exists c,
        fst (client._ensure_client p) = Return c
        /\ AsyncClient.base_url c
           = N8NSettings.n8n_url (settings (self p)) ++ "/api/v1"
        /\ AsyncClient.timeout c = N8NSettings.timeout (settings (self p))
        /\ AsyncClient.is_closed c = false
        /\ (N8NSettings.api_key (settings (self p)) = "" ->
            AsyncClient.headers c = [])
        /\ (N8NSettings.api_key (settings (self p)) <> "" ->
            AsyncClient.headers c
            = [("X-N8N-API-KEY", N8NSettings.api_key (settings (self p)))])).
Proof.
  split; [| split].
  - destruct (ensure_client_frame p) as (c & q & Hensure & Hhandle & _).
    exists c, q. split; [exact Hensure |].
    apply ensure_client_keeps. exact Hhandle.
  - intros c Hhandle. apply ensure_client_keeps. exact Hhandle.
  - intros Hnone.
    unfold client._ensure_client, bind, get_self, set__client, ret.
    rewrite Hnone. cbn.
    eexists. split; [reflexivity |]. cbn.
    repeat split.
    + intros ->. reflexivity.
    + intros Hkey. apply String.eqb_neq in Hkey. rewrite Hkey. reflexivity.
Qed.

(** X12.  [close] is idempotent, undoes [_ensure_client], and touches
    neither the settings, nor the remote side, nor the wire; entering and
    leaving the client as a context manager gives back a client without a
    handle the state it had. *)
Theorem close_is_idempotent_and_undoes_open (p : Process) :
  (client.close ;; client.close) p = client.close p
  /\ (client._ensure_client ;; client.close) p = client.close p
  /\ settings (self (snd (client.close p))) = settings (self p)
  /\ n8n (snd (client.close p)) = n8n p
  /\ wire (snd (client.close p)) = wire p
  /\ (_client (self p) = None ->
      client.close p = (Return tt, p)
      /\ (client.__aenter__ ;; client.__aexit__) p = (Return tt, p)).
Proof.
  assert (Hnone : _client (self p) = None ->
                  mkProcess (N8NClient_init (settings (self p))) (n8n p)
                    (wire p) = p).
  { destruct p as [[s handle] remote sent]. cbn. intros ->. reflexivity. }
  split; [| split; [| split; [| split; [| split]]]].
  - unfold bind. rewrite close_forgets_handle.
    rewrite close_forgets_handle. reflexivity.
  - unfold bind.
    destruct (ensure_client_frame p)
      as (c & q & Hensure & _ & Hsettings & Hremote & Hwire).
    rewrite Hensure, !close_forgets_handle, Hsettings, Hremote, Hwire.
    reflexivity.
  - rewrite close_forgets_handle. reflexivity.
  - rewrite close_forgets_handle. reflexivity.
  - rewrite close_forgets_handle. reflexivity.
  - intros Hhandle. split.
    + rewrite close_forgets_handle, (Hnone Hhandle). reflexivity.
    + unfold client.__aenter__, client.__aexit__, bind, ret.
      destruct (ensure_client_frame p)
        as (c & q & Hensure & _ & Hsettings & Hremote & Hwire).
      rewrite Hensure, close_forgets_handle, Hsettings, Hremote, Hwire.
      rewrite (Hnone Hhandle). reflexivity.
Qed.

Lemma step_keeps_handle_usable (a : Action) (p : Process) :
  handle_usable p = true -> handle_usable (step a p) = true.
Proof.
  intros Husable.
  assert (Hperform : forall op, handle_usable (snd (perform op p)) = true).
  { intros op. destruct (in_mock_mode p) eqn:Hmode.
    - destruct (perform_in_mock_mode op p Hmode) as [v Hrun].
      rewrite Hrun. exact Husable.
    - destruct (perform_sends op p Hmode Husable)
        as (_ & (c & Hhandle & Hopen) & _).
      unfold handle_usable. rewrite Hhandle, Hopen. reflexivity. }
  destruct a as [op | call | |]; cbn [step].
  - apply Hperform.
  - rewrite invoke_state.
    destruct (operation_of call) as [op |]; [apply Hperform | exact Husable].
  - destruct (ensure_client_usable p Husable)
      as (c & q & Hensure & Hopen & Hhandle & _).
    rewrite Hensure. unfold handle_usable. cbn [snd].
    rewrite Hhandle, Hopen. reflexivity.
  - rewrite close_forgets_handle. reflexivity.
Qed.

(** X13.  The client never holds a closed handle.  Starting without a
    closed handle, after any sequence of client operations, tool calls,
    [_ensure_client] and [close], in any order, the handle is absent or
    open, and an operation run next does not end in a [RuntimeError], the
    fault of a closed handle. *)
Theorem sessions_never_meet_a_closed_handle (l : list Action) (p : Process) :
  handle_usable p = true ->
  handle_usable (session l p) = true
  /\ forall op msg, fst (perform op (session l p)) <> Raise (RuntimeError msg).
Proof.
  revert p. induction l as [| a l IH]; intros p Husable; cbn [session].
  - split; [exact Husable |].
    intros op. destruct (in_mock_mode p) eqn:Hmode.
    + destruct (perform_in_mock_mode op p Hmode) as [v Hrun].
      rewrite Hrun. intros msg. discriminate.
    + apply (perform_sends op p Hmode Husable).
  - apply IH. apply step_keeps_handle_usable. exact Husable.
Qed.
End HandleLifecycle.

Section ValidatedAnswers.
Context {E : Externals}.

(** X14.  In live mode an operation that returns one model instance,
    answered 2xx with a JSON object, validates the mapping under the key
    [data], or the empty mapping when the key is missing, and returns the
    instance or raises the validation error; nothing else of the body is
    looked at. *)
Theorem answer_is_validated_payload (op : Operation) (p q : Process)
    (c : AsyncClient.t) (response : Response.t) (remote' : Remote)
    (body payload : dict) (outcome : result Returned) :
  in_mock_mode p = false ->
  validated_answer op payload = Some outcome ->
  client._ensure_client p = (Return c, q) ->
  AsyncClient.is_closed c = false ->
  transport (n8n p) c (request_of op) = (inr response, remote') ->
  Response.is_success response = true ->
  Response.body response = inr (PyDict body) ->
  dict_get "data" body = Some (PyDict payload)
  \/ (dict_get "data" body = None /\ payload = []) ->
  perform op p
  = (outcome, mkProcess (self q) remote' (wire p ++ [request_of op])).
Proof.
  intros Hlive Houtcome Hensure Hopen Hanswer Hstatus Hbody Hdata.
  destruct op; try discriminate Houtcome; injection Houtcome as <-;
    cbn [perform request_of] in *; rewrite bind_ret_run;
    unfold_operation; rewrite live_branch by exact Hlive;
    rewrite (request_run _ _ p q c _ remote' Hensure Hopen Hanswer);
    unfold client.checked, bind, lift, ret, Response.raise_for_status,
      Response.json, construct_one;
    rewrite Hstatus, Hbody; cbn [get_data];
    destruct Hdata as [-> | [-> ->]]; cbn [construct];
    match goal with
    | |- context [match ?validation with inr _ => _ | inl _ => _ end] =>
        destruct validation; reflexivity
    end.
Qed.
End ValidatedAnswers.

Section UrlValidator.
Import config.

Lemma rstrip_slash_splits (v : string) :
  exists n, v = rstrip_slash v ++ slashes n.
Proof.
  induction v as [| ch v [n IH]]; [exists 0; reflexivity |].
  cbn [rstrip_slash].
  destruct (String.eqb_spec (rstrip_slash v) "") as [Hempty | Hrest].
  - destruct (Ascii.eqb_spec ch "/") as [-> | Hch]; cbn [andb].
    + exists (S n). rewrite IH at 1. rewrite Hempty. reflexivity.
    + exists n. cbn. rewrite <- IH. reflexivity.
  - cbn [andb]. exists n. cbn. rewrite <- IH. reflexivity.
Qed.

Lemma rstrip_slash_has_no_trailing_slash (v : string) :
  ends_with_slash (rstrip_slash v) = false.
Proof.
  induction v as [| ch v IH]; [reflexivity |].
  cbn [rstrip_slash].
  destruct (String.eqb_spec (rstrip_slash v) "") as [Hempty | Hrest].
  - destruct (Ascii.eqb_spec ch "/") as [-> | Hch]; cbn [andb];
      [reflexivity |].
    rewrite Hempty. cbn. apply Ascii.eqb_neq. exact Hch.
  - cbn [andb]. destruct (rstrip_slash v) as [| ch' rest];
      [contradiction | exact IH].
Qed.

(** X15.  The validator of [n8n_url] accepts exactly the values that start
    with "http://" or "https://"; what it stores is the value without its
    trailing slashes, and only those are removed. *)
Theorem validate_url_strips_trailing_slashes (v : string) :
  (has_scheme v = false ->
   validate_url v
   = ValueError "n8n_url must start with http:// or https://")
  /\ (has_scheme v = true ->
      exists u n,
        validate_url v = Valid u
        /\ v = u ++ slashes n
        /\ ends_with_slash u = false).
Proof.
  unfold validate_url. split; intros Hscheme; rewrite Hscheme.
  - reflexivity.
  - destruct (rstrip_slash_splits v) as [n Hsplit].
    exists (rstrip_slash v), n.
    repeat split; [exact Hsplit | apply rstrip_slash_has_no_trailing_slash].
Qed.
End UrlValidator.

Section Dumps.

Lemma map_injective {A B : Type} (f : A -> B) (l l' : list A) :
  (forall a a', f a = f a' -> a = a') -> map f l = map f l' -> l = l'.
Proof.
  intros Hf. revert l'.
  induction l as [| a l IH]; intros [| a' l'] Hmap;
    try discriminate Hmap; [reflexivity |].
  cbn in Hmap. injection Hmap as Ha Hl.
  f_equal; [apply Hf; exact Ha | apply IH; exact Hl].
Qed.

Lemma py_option_injective {A : Type} (f : A -> Any) (o o' : option A) :
  (forall a, f a <> PyNone) ->
  (forall a a', f a = f a' -> a = a') ->
  py_option f o = py_option f o' -> o = o'.
Proof.
  intros Hnone Hf.
  destruct o as [a |], o' as [a' |]; cbn; intros Heq.
  - f_equal. apply Hf. exact Heq.
  - destruct (Hnone a Heq).
  - symmetry in Heq. destruct (Hnone a' Heq).
  - reflexivity.
Qed.

Lemma PyStr_injective (s s' : string) : PyStr s = PyStr s' -> s = s'.
Proof. intros Heq. injection Heq as ->. reflexivity. Qed.

Lemma PyDict_injective (d d' : dict) : PyDict d = PyDict d' -> d = d'.
Proof. intros Heq. injection Heq as ->. reflexivity. Qed.

Lemma PyDatetime_injective (t t' : datetime) :
  PyDatetime t = PyDatetime t' -> t = t'.
Proof. intros Heq. injection Heq as ->. reflexivity. Qed.

Lemma status_value_injective (s s' : ExecutionStatus.t) :
  ExecutionStatus.value s = ExecutionStatus.value s' -> s = s'.
Proof. destruct s, s'; cbn; intros Heq; try discriminate Heq; reflexivity. Qed.

(** X16.  Serialization loses nothing: two workflows, two executions or two
    credentials with the same [model_dump] are the same instance; in
    particular the five status tokens are pairwise distinct. *)
Theorem model_dump_is_injective :
  (forall w w' : Workflow.t,
      Workflow.model_dump w = Workflow.model_dump w' -> w = w')
  /\ (forall e e' : Execution.t,
         Execution.model_dump e = Execution.model_dump e' -> e = e')
  /\ (forall c c' : Credential.t,
         Credential.model_dump c = Credential.model_dump c' -> c = c').
Proof.
  split; [| split].
  - intros [i n a ns cs ss created updated ts]
           [i' n' a' ns' cs' ss' created' updated' ts'].
    unfold Workflow.model_dump. cbn. intros Heq.
    injection Heq as -> -> -> Hnodes -> -> Hcreated Hupdated Htags.
    apply (map_injective PyDict _ _ PyDict_injective) in Hnodes.
    apply (map_injective PyStr _ _ PyStr_injective) in Htags.
    apply (py_option_injective PyDatetime) in Hcreated;
      [| discriminate | exact PyDatetime_injective].
    apply (py_option_injective PyDatetime) in Hupdated;
      [| discriminate | exact PyDatetime_injective].
    subst. reflexivity.
  - intros [i w s started stopped d err] [i' w' s' started' stopped' d' err'].
    unfold Execution.model_dump. cbn. intros Heq.
    injection Heq as -> -> Hstatus Hstarted Hstopped Hdata Herror.
    apply status_value_injective in Hstatus.
    apply (py_option_injective PyDatetime) in Hstarted;
      [| discriminate | exact PyDatetime_injective].
    apply (py_option_injective PyDatetime) in Hstopped;
      [| discriminate | exact PyDatetime_injective].
    apply (py_option_injective PyDict) in Hdata;
      [| discriminate | exact PyDict_injective].
    apply (py_option_injective PyStr) in Herror;
      [| discriminate | exact PyStr_injective].
    subst. reflexivity.
  - intros [i n t created updated] [i' n' t' created' updated'].
    unfold Credential.model_dump. cbn. intros Heq.
    injection Heq as -> -> -> Hcreated Hupdated.
    apply (py_option_injective PyDatetime) in Hcreated;
      [| discriminate | exact PyDatetime_injective].
    apply (py_option_injective PyDatetime) in Hupdated;
      [| discriminate | exact PyDatetime_injective].
    subst. reflexivity.
Qed.
End Dumps.

Section EdgeCases.
Context {E : Externals}.

(** X17.  [_ensure_client] tests only whether the client holds a handle,
    not whether the handle is open: in live mode, on a client left holding
    a closed handle, every operation ends in the closed-handle fault
    without putting anything on the wire, and so does every later one,
    until [close] makes the client forget the handle. *)
Theorem closed_handle_is_not_replaced (op : Operation) (p : Process)
    (c : AsyncClient.t) :
  in_mock_mode p = false ->
  _client (self p) = Some c ->
  AsyncClient.is_closed c = true ->
  perform op p = (Raise AsyncClient.closed_error, p)
  /\ handle_usable (snd (client.close p)) = true.
Proof.
  intros Hlive Hhandle Hclosed. split.
  - destruct op; cbn [perform]; rewrite bind_ret_run; unfold_operation;
      rewrite live_branch by exact Hlive;
      unfold bind at 1; rewrite (ensure_client_keeps p c Hhandle);
      unfold bind, send; rewrite Hclosed; reflexivity.
  - rewrite close_forgets_handle. reflexivity.
Qed.

(** X18.  A listing of a decoded JSON object returns the empty list in
    four cases and no other: the key [data] is missing, or it holds the
    empty list, the empty mapping or the empty string. *)
Theorem listing_is_empty_exactly_when {A : Type} (model : string)
    (validate : dict -> string + A) (body : dict) :
  construct_all model validate (PyDict body) = Return []
  <-> dict_get "data" body = None
      \/ dict_get "data" body = Some (PyList [])
      \/ dict_get "data" body = Some (PyDict [])
      \/ dict_get "data" body = Some (PyStr "").
Proof.
  unfold construct_all. cbn [get_data].
  destruct (dict_get "data" body) as [[| b | n | x | s | t | l | d] |];
    cbn [iterate];
    try (split; [discriminate | intros [H | [H | [H | H]]]; discriminate H]).
  - destruct s as [| ch s]; cbn.
    + split; [intros _; right; right; right; reflexivity | reflexivity].
    + split; [discriminate |].
      intros [H | [H | [H | H]]]; discriminate H.
  - destruct l as [| item l].
    + split; [intros _; right; left; reflexivity | reflexivity].
    + cbn. split.
      * destruct (construct model validate item); [| discriminate].
        destruct (comprehension (construct model validate) l); discriminate.
      * intros [H | [H | [H | H]]]; discriminate H.
  - destruct d as [| [k v] d].
    + split; [intros _; right; right; left; reflexivity | reflexivity].
    + cbn. split; [discriminate |].
      intros [H | [H | [H | H]]]; discriminate H.
  - split; [intros _; left; reflexivity | reflexivity].
Qed.
End EdgeCases.

(** ** The further properties at work *)

Lemma mock_mode_always_succeeds_witness :
  in_mock_mode mock_process = true
  /\ (forall op : Operation,
         exists v, perform op mock_process = (Return v, mock_process))
  /\ (forall call : ToolCall,
         exists r,
           invoke call mock_process = (Return r, mock_process)
           /\ success_envelope r = true).
Proof.
  split; [reflexivity |].
  apply (@mock_mode_always_succeeds unreachable mock_process).
  reflexivity.
Defined.

Lemma live_operation_sends_its_request_witness :
  wire (snd (perform (op_get_workflow "7") live_process))
  = [Request.mk GET "/workflows/7" None None]
  /\ exists c,
       _client (self (snd (perform (op_get_workflow "7") live_process)))
       = Some c
       /\ AsyncClient.is_closed c = false.
Proof.
  apply (@live_operation_sends_its_request unreachable (op_get_workflow "7")
           live_process); reflexivity.
Defined.

Lemma transport_fault_surfaces_witness :
  (exists r p',
      invoke (E := unreachable) (call_get_workflow "7") live_process
      = (Return r, p')
      /\ ToolResponse.success r = false
      /\ ToolResponse.error r = Some "All connection attempts failed"
      /\ ToolResponse.data r = None)
  /\ exists p',
       invoke (E := fallback_unreachable) (call_get_workflow "7")
         (boot (E := fallback_unreachable) live_settings tt)
       = (Raise unexpected_error_keyword, p').
Proof.
  split.
  - destruct
      (proj1 (proj2
         (@transport_fault_surfaces unreachable (call_get_workflow "7")
            (op_get_workflow "7") live_process
            (mkProcess (E := unreachable) (mkN8NClient live_settings (Some live_handle)) tt [])
            live_handle "All connection attempts failed" tt
            eq_refl eq_refl eq_refl eq_refl eq_refl)) eq_refl)
      as (r & Hcall & Hsuccess & Herror & Hdata).
    exists r. eexists. repeat split; eassumption.
  - eexists.
    apply
      (proj2 (proj2
         (@transport_fault_surfaces fallback_unreachable
            (call_get_workflow "7") (op_get_workflow "7")
            (boot (E := fallback_unreachable) live_settings tt)
            (mkProcess (E := fallback_unreachable) (mkN8NClient live_settings (Some live_handle)) tt [])
            live_handle "All connection attempts failed" tt
            eq_refl eq_refl eq_refl eq_refl eq_refl)) eq_refl).
Defined.

Lemma refused_status_surfaces_witness :
  (exists r p',
      invoke (E := answering not_found_answer) (call_get_workflow "missing")
        (boot (E := answering not_found_answer) live_settings 0)
      = (Return r, p')
      /\ ToolResponse.success r = false
      /\ ToolResponse.error r = Some "Client error '404 Not Found'"
      /\ ToolResponse.data r = None)
  /\ exists p',
       invoke (call_get_workflow "missing") fallback_process
       = (Raise unexpected_error_keyword, p').
Proof.
  split.
  - destruct
      (proj1 (proj2
         (@refused_status_surfaces (answering not_found_answer)
            (call_get_workflow "missing") (op_get_workflow "missing")
            (boot (E := answering not_found_answer) live_settings 0)
            (mkProcess (E := answering not_found_answer) (mkN8NClient live_settings (Some live_handle)) 0 [])
            live_handle not_found_answer 1
            eq_refl eq_refl eq_refl eq_refl eq_refl eq_refl)) eq_refl)
      as (r & Hcall & Hsuccess & Herror & Hdata).
    exists r. eexists. repeat split; eassumption.
  - eexists.
    apply
      (proj2 (proj2
         (@refused_status_surfaces fallback_404
            (call_get_workflow "missing") (op_get_workflow "missing")
            fallback_process
            (mkProcess (E := fallback_404) (mkN8NClient live_settings (Some live_handle)) tt [])
            live_handle not_found_answer tt
            eq_refl eq_refl eq_refl eq_refl eq_refl eq_refl)) eq_refl).
Defined.

Lemma deletion_acknowledged_on_status_witness :
  let p := boot (E := answering no_content_answer) live_settings 0 in
  exists c q,
    client._ensure_client p = (Return c, q)
    /\ perform (op_delete_workflow "7") p
       = (Return (an_acknowledgment true),
          mkProcess (E := answering no_content_answer) (self q) 1 (wire p ++ [request_of (op_delete_workflow "7")]))
    /\ exists r,
         invoke (call_delete_workflow "7") p
         = (Return r,
            mkProcess (E := answering no_content_answer) (self q) 1
              (wire p ++ [request_of (op_delete_workflow "7")]))
         /\ success_envelope r = true.
Proof.
  intros p. eexists; eexists. split; [lazy; reflexivity |].
  eapply (@deletion_acknowledged_on_status (answering no_content_answer)
           (call_delete_workflow "7") (op_delete_workflow "7") p);
    lazy; reflexivity.
Defined.

Lemma listing_without_data_is_empty_witness :
  let p := boot (E := answering bare_answer) live_settings 0 in
  exists c q,
    client._ensure_client p = (Return c, q)
    /\ perform op_list_workflows p
       = (Return (some_workflows []),
          mkProcess (E := answering bare_answer) (self q) 1 (wire p ++ [request_of op_list_workflows]))
    /\ exists r d,
         invoke call_list_workflows p
         = (Return r,
            mkProcess (E := answering bare_answer) (self q) 1 (wire p ++ [request_of op_list_workflows]))
         /\ ToolResponse.success r = true
         /\ ToolResponse.data r = Some d
         /\ dict_get "count" d = Some (PyInt 0).
Proof.
  intros p. eexists; eexists. split; [lazy; reflexivity |].
  eapply (@listing_without_data_is_empty (answering bare_answer)
           call_list_workflows op_list_workflows (some_workflows []) p _ _
           bare_answer 1 [("nextCursor", PyNone)]);
    lazy; reflexivity.
Defined.

Lemma listing_count_matches_witness :
  exists r d,
    fst (invoke call_list_workflows mock_process) = Return r
    /\ ToolResponse.data r = Some d
    /\ exists items,
         dict_get "workflows" d = Some (PyList items)
         /\ dict_get "count" d = Some (PyInt (Z.of_nat (length items)))
         /\ ToolResponse.message r
            = "Found " ++ str_of_nat (length items) ++ " workflows".
Proof.
  eexists; eexists. split; [lazy; reflexivity |]. split; [reflexivity |].
  apply (@listing_count_matches unreachable call_list_workflows "workflows"
           mock_process); reflexivity.
Defined.

Lemma listing_is_all_or_nothing_witness :
  let validate := fun d : dict =>
    match text_field "id" d with
    | Some i => inr i
    | None => inl "id: field required"
    end in
  let items := [PyDict [("id", PyStr "1")]; PyDict [("name", PyStr "x")]] in
  let e := ValidationError "id: field required" in
  construct_all "Credential" validate (PyDict [("data", PyList items)])
  = Raise e
  <-> exists pre item post,
        items = (pre ++ item :: post)%list
        /\ Forall
             (fun item' =>
                exists d a, item' = PyDict d /\ validate d = inr a)
             pre
        /\ construct "Credential" validate item = Raise e.
Proof.
  intros validate items e.
  apply (proj2 (listing_is_all_or_nothing "Credential" validate
                  [("data", PyList items)] items eq_refl) e).
Defined.

Lemma update_sends_only_given_fields_witness :
  exists body,
    wire (snd (invoke (call_update_workflow "7" (Some "Renamed") None None)
                 live_process))
    = [Request.mk PATCH "/workflows/7" None (Some body)]
    /\ dict_get "name" body = Some (PyStr "Renamed")
    /\ dict_get "nodes" body = None.
Proof.
  destruct (@update_sends_only_given_fields unreachable "7" (Some "Renamed")
              None None live_process eq_refl eq_refl)
    as (body & Hwire & Hname & Hnodes & _).
  exists body. repeat split; assumption.
Defined.

Lemma execute_sends_data_when_non_empty_witness :
  exists body,
    wire (snd (invoke (call_execute_workflow "wf-1" (Some [])) live_process))
    = [Request.mk POST "/workflows/wf-1/execute" None (Some body)]
    /\ body = [].
Proof.
  destruct (@execute_sends_data_when_non_empty unreachable "wf-1" (Some [])
              live_process eq_refl eq_refl)
    as (body & Hwire & Hempty & _).
  exists body. split; [exact Hwire |]. apply Hempty. right. reflexivity.
Defined.

Lemma ensure_client_is_lazy_and_idempotent_witness :
  exists c,
    fst (client._ensure_client live_process) = Return c
    /\ AsyncClient.base_url c = "http://localhost:5678/api/v1"
    /\ AsyncClient.headers c = [("X-N8N-API-KEY", "secret-key")].
Proof.
  destruct (proj2 (proj2 (@ensure_client_is_lazy_and_idempotent unreachable
                            live_process)) eq_refl)
    as (c & Hensure & Hurl & _ & _ & _ & Hkey).
  exists c. repeat split; [exact Hensure | exact Hurl |].
  apply Hkey. discriminate.
Defined.

Lemma close_is_idempotent_and_undoes_open_witness :
  client.close live_process = (Return tt, live_process)
  /\ (client.__aenter__ ;; client.__aexit__) live_process
     = (Return tt, live_process).
Proof.
  apply (proj2 (proj2 (proj2 (proj2 (proj2
           (@close_is_idempotent_and_undoes_open unreachable live_process)))))).
  reflexivity.
Defined.

Lemma sessions_never_meet_a_closed_handle_witness :
  let l := [ act_invoke (call_get_workflow "7"); act_close;
             act_perform op_list_credentials; act_ensure; act_close ] in
  handle_usable (session l live_process) = true
  /\ forall op msg,
       fst (perform op (session l live_process)) <> Raise (RuntimeError msg).
Proof.
  intros l.
  apply (@sessions_never_meet_a_closed_handle unreachable l live_process).
  reflexivity.
Defined.

Lemma answer_is_validated_payload_witness :
  let p := boot (E := answering workflow_answer) live_settings 0 in
  exists c q w,
    client._ensure_client p = (Return c, q)
    /\ Workflow.name w = "Seven"
    /\ perform (op_get_workflow "7") p
       = (Return (a_workflow w),
          mkProcess (E := answering workflow_answer) (self q) 1 (wire p ++ [request_of (op_get_workflow "7")])).
Proof.
  intros p. eexists; eexists; eexists. split; [lazy; reflexivity |].
  split;
    [| eapply (@answer_is_validated_payload (answering workflow_answer)
                 (op_get_workflow "7") p _ _ workflow_answer 1
                 [("data", PyDict [("id", PyStr "7"); ("name", PyStr "Seven")])]
                 [("id", PyStr "7"); ("name", PyStr "Seven")]);
       try (lazy; reflexivity); left; reflexivity ].
  reflexivity.
Defined.

Lemma validate_url_strips_trailing_slashes_witness :
  exists u n,
    config.validate_url "http://localhost:5678//" = config.Valid u
    /\ "http://localhost:5678//" = u ++ config.slashes n
    /\ config.ends_with_slash u = false.
Proof.
  apply (proj2 (validate_url_strips_trailing_slashes "http://localhost:5678//")).
  reflexivity.
Defined.

Lemma model_dump_is_injective_witness :
  client._mock_get_credential "1"
  = Credential.mk "1" "Credential 1" "httpBasicAuth" None None.
Proof.
  apply (proj2 (proj2 model_dump_is_injective)). reflexivity.
Defined.

Lemma closed_handle_is_not_replaced_witness :
  perform op_list_workflows stale_process
  = (Raise AsyncClient.closed_error, stale_process)
  /\ handle_usable (snd (client.close stale_process)) = true.
Proof.
  eapply (@closed_handle_is_not_replaced unreachable op_list_workflows
            stale_process); reflexivity.
Defined.

Lemma returned_envelope_has_exactly_one_shape_witness :
  exists r p',
    invoke (call_get_workflow "42") mock_process = (Return r, p')
    /\ xorb (success_envelope r) (failure_envelope r) = true.
Proof.
  eexists; eexists. split; [reflexivity |].
  eapply (@returned_envelope_has_exactly_one_shape unreachable
            (call_get_workflow "42") mock_process).
  reflexivity.
Defined.

Lemma tool_call_returns_on_quiet_logger_witness :
  exists r p',
    invoke (call_get_workflow "7") live_process = (Return r, p')
    /\ p' = snd (perform (op_get_workflow "7") live_process)
    /\ ToolResponse.success r = false
    /\ ToolResponse.error r = Some "All connection attempts failed"
    /\ ToolResponse.data r = None
    /\ ToolResponse.next_steps r = None.
Proof.
  exact (@tool_call_returns_on_quiet_logger unreachable
           (call_get_workflow "7") live_process eq_refl).
Defined.
